(** * B53 register access through MII registers (b53_mdio.c)

    Shallow embedding of the indirect register access protocol of the
    B53 switch driver: page selection with its per-device cache, the
    operation sequencer [b53_mdio_op] with its bounded completion poll,
    and the ten width-specific accessors [b53_mdio_read8] ..
    [b53_mdio_write64].

    The MDIO bus itself ([mdiobus_read], [mdiobus_write]) belongs to the
    kernel; it is an interface here, and the driver is a state-passing
    program over a device handle that also records every bus transaction
    it issues. *)

From Stdlib Require Import ZArith List Lia Bool.
Import ListNotations.
Open Scope Z_scope.

(** ** C integer conversions *)

(** Conversion of an integer to an unsigned type of the given width:
    reduction modulo [2^w], also for negative [int] values. *)
Definition u8 (x : Z) : Z := x mod 2 ^ 8.
Definition u16 (x : Z) : Z := x mod 2 ^ 16.
Definition u32 (x : Z) : Z := x mod 2 ^ 32.
Definition u64 (x : Z) : Z := x mod 2 ^ 64.

(** ** Constants of the source *)

Definition B53_PSEUDO_PHY : Z := 0x1e.

Definition REG_MII_PAGE : Z := 0x10.
Definition REG_MII_ADDR : Z := 0x11.
Definition REG_MII_DATA0 : Z := 0x18.
Definition REG_MII_DATA1 : Z := 0x19.
Definition REG_MII_DATA2 : Z := 0x1a.
Definition REG_MII_DATA3 : Z := 0x1b.

Definition REG_MII_PAGE_ENABLE : Z := 1.  (* BIT(0) *)
Definition REG_MII_ADDR_WRITE : Z := 1.   (* BIT(0) *)
Definition REG_MII_ADDR_READ : Z := 2.    (* BIT(1) *)

(** Linux errno [EIO]; the driver returns [-EIO]. *)
Definition EIO : Z := 5.

(** ** The bus transport

    [struct mii_bus] as the driver sees it.  Both calls return a C [int]
    together with the bus after the transaction: [mdiobus_write] returns
    0 or a negative errno, [mdiobus_read] the 16-bit register value or a
    negative errno.  The arguments are the PHY address, the register
    number and, for a write, the 16-bit value. *)
Class mii_bus (B : Type) : Type := {
  mdiobus_write : B -> Z -> Z -> Z -> Z * B;
  mdiobus_read : B -> Z -> Z -> Z * B
}.

(** What the driver does to the outside world, in program order.  Every
    transaction carries the register number and the [int] the bus
    returned; a write also carries the value put on the bus. *)
Inductive event : Type :=
| EvWrite (reg val ret : Z)
| EvRead (reg ret : Z)
| EvSleep
| EvWarn.

(** Register classes. *)
Definition is_slot (reg : Z) : bool :=
  (REG_MII_DATA0 <=? reg) && (reg <=? REG_MII_DATA3).

Definition is_page_select (e : event) : bool :=
  match e with EvWrite reg _ _ => reg =? REG_MII_PAGE | _ => false end.

Definition is_trigger (e : event) : bool :=
  match e with EvWrite reg _ _ => reg =? REG_MII_ADDR | _ => false end.

Definition is_poll (e : event) : bool :=
  match e with EvRead reg _ => reg =? REG_MII_ADDR | _ => false end.

Definition is_slot_write (e : event) : bool :=
  match e with EvWrite reg _ _ => is_slot reg | _ => false end.

Definition is_slot_read (e : event) : bool :=
  match e with EvRead reg _ => is_slot reg | _ => false end.

Definition is_ok_slot_write (e : event) : bool :=
  match e with EvWrite reg _ ret => is_slot reg && (ret =? 0) | _ => false end.

Definition is_failed_slot_write (e : event) : bool :=
  match e with EvWrite reg _ ret => is_slot reg && negb (ret =? 0) | _ => false end.

Definition is_failed_write (e : event) : bool :=
  match e with EvWrite _ _ ret => negb (ret =? 0) | _ => false end.

(** Status word of the address register: an operation is pending while
    the READ or the WRITE bit is set in the 16-bit word. *)
Definition pending (v : Z) : bool :=
  negb (Z.land (u16 v) (Z.lor REG_MII_ADDR_WRITE REG_MII_ADDR_READ) =? 0).

Definition is_clear_poll (e : event) : bool :=
  match e with EvRead reg ret => (reg =? REG_MII_ADDR) && negb (pending ret) | _ => false end.

Definition count (p : event -> bool) (tr : list event) : nat :=
  length (filter p tr).

(** The data-slot writes of a trace, as (register, value) pairs. *)
Fixpoint slot_writes (tr : list event) : list (Z * Z) :=
  match tr with
  | [] => []
  | EvWrite reg val _ :: tr' =>
      if is_slot reg then (reg, val) :: slot_writes tr' else slot_writes tr'
  | _ :: tr' => slot_writes tr'
  end.

(** Width of a device register. *)
Inductive width : Type := W8 | W16 | W32 | W48 | W64.

Definition bits (w : width) : Z :=
  match w with W8 => 8 | W16 => 16 | W32 => 32 | W48 => 48 | W64 => 64 end.

(** Number of 16-bit data slots of a width, [ceil(bits / 16)]. *)
Definition slots (w : width) : nat :=
  match w with W8 => 1 | W16 => 1 | W32 => 2 | W48 => 3 | W64 => 4 end%nat.

(** The (register, value) pairs a write of [value] has to stage: slot
    [i] carries [(value >> (16*i)) & 0xFFFF]. *)
Definition staged (w : width) (value : Z) : list (Z * Z) :=
  map (fun i => (REG_MII_DATA0 + Z.of_nat i,
                 Z.land (Z.shiftr value (16 * Z.of_nat i)) 0xffff))
      (seq 0 (slots w)).

Section Driver.

Context {B : Type} {bus : mii_bus B}.

(** [struct b53_device], the fields this file touches: [priv] is the
    bus, [current_page] the cached page (a [u8]). *)
Record b53_device : Type := {
  priv : B;
  current_page : Z
}.

(** Computations on a device handle that log their events. *)
Definition M (A : Type) : Type := b53_device -> A * b53_device * list event.

Definition mret {A} (a : A) : M A := fun d => (a, d, []).

Definition mbind {A C} (m : M A) (f : A -> M C) : M C :=
  fun d =>
    let '(a, d1, t1) := m d in
    let '(c, d2, t2) := f a d1 in
    (c, d2, t1 ++ t2).

Notation "x <- m ;; k" := (mbind m (fun x => k))
  (at level 61, m at next level, right associativity).
Notation "m ;;; k" := (mbind m (fun _ => k))
  (at level 61, right associativity).

Definition result {A} (x : A * b53_device * list event) : A := fst (fst x).
Definition final {A} (x : A * b53_device * list event) : b53_device := snd (fst x).
Definition trace {A} (x : A * b53_device * list event) : list event := snd x.

(** [mdiobus_write(bus, B53_PSEUDO_PHY, reg, val)]; the value parameter
    is a [u16]. *)
Definition bus_write (reg val : Z) : M Z :=
  fun d =>
    let '(r, b) := mdiobus_write (priv d) B53_PSEUDO_PHY reg (u16 val) in
    (r, {| priv := b; current_page := current_page d |},
     [EvWrite reg (u16 val) r]).

(** [mdiobus_read(bus, B53_PSEUDO_PHY, reg)]. *)
Definition bus_read (reg : Z) : M Z :=
  fun d =>
    let '(r, b) := mdiobus_read (priv d) B53_PSEUDO_PHY reg in
    (r, {| priv := b; current_page := current_page d |}, [EvRead reg r]).

Definition get_current_page : M Z := fun d => (current_page d, d, []).

Definition set_current_page (page : Z) : M unit :=
  fun d => (tt, {| priv := priv d; current_page := page |}, []).

Definition usleep_range (lo hi : Z) : M unit := fun d => (tt, d, [EvSleep]).

Definition WARN_ON (c : bool) : M bool :=
  fun d => (c, d, if c then [EvWarn] else []).

(** The completion loop of [b53_mdio_op],
    [for (i = 0; i < 5; ++i) { v = read; if (!(v & 3)) break; usleep }],
    with [n] iterations left; it returns the final [i].  The value read
    is stored in a [u16]. *)
Fixpoint poll (n : nat) (i : Z) : M Z :=
  match n with
  | O => mret i
  | S n' =>
      r <- bus_read REG_MII_ADDR ;;
      let v := u16 r in
      if Z.land v (Z.lor REG_MII_ADDR_WRITE REG_MII_ADDR_READ) =? 0
      then mret i
      else usleep_range 10 100 ;;; poll n' (i + 1)
  end.

(** [b53_mdio_op(dev, page, reg, op)].  Each [if (ret) return ret;] is
    the [else] branch of a test [ret =? 0]. *)
Definition b53_mdio_op (page reg op : Z) : M Z :=
  cur <- get_current_page ;;
  ret <- (if negb (cur =? page) then
            (* set page number *)
            let v := u16 (Z.lor (Z.shiftl page 8) REG_MII_PAGE_ENABLE) in
            ret <- bus_write REG_MII_PAGE v ;;
            if ret =? 0 then set_current_page page ;;; mret 0
            else mret ret
          else mret 0) ;;
  if negb (ret =? 0) then mret ret else
  (* set register address *)
  let v := u16 (Z.lor (Z.shiftl reg 8) op) in
  ret <- bus_write REG_MII_ADDR v ;;
  if negb (ret =? 0) then mret ret else
  (* check if operation completed *)
  i <- poll 5 0 ;;
  w <- WARN_ON (i =? 5) ;;
  if w then mret (- EIO) else mret 0.

(** The accessors.  Their arguments are taken in the range of their C
    types: [page] and [reg] are [u8], [value] has the width of the
    accessor.  The read accessors return the status and, when [*val] was
    assigned, its value. *)
Definition b53_mdio_read8 (page reg : Z) : M (Z * option Z) :=
  ret <- b53_mdio_op page reg REG_MII_ADDR_READ ;;
  if negb (ret =? 0) then mret (ret, None) else
  r <- bus_read REG_MII_DATA0 ;;
  mret (0, Some (u8 (Z.land r 0xff))).

Definition b53_mdio_read16 (page reg : Z) : M (Z * option Z) :=
  ret <- b53_mdio_op page reg REG_MII_ADDR_READ ;;
  if negb (ret =? 0) then mret (ret, None) else
  r <- bus_read REG_MII_DATA0 ;;
  mret (0, Some (u16 r)).

(** [*val |= mdiobus_read(..) << 16]: the shifted [int] is converted to
    [u32] (two's complement wrap-around) and or-ed in. *)
Definition b53_mdio_read32 (page reg : Z) : M (Z * option Z) :=
  ret <- b53_mdio_op page reg REG_MII_ADDR_READ ;;
  if negb (ret =? 0) then mret (ret, None) else
  r0 <- bus_read REG_MII_DATA0 ;;
  let val := u32 r0 in
  r1 <- bus_read REG_MII_DATA1 ;;
  let val := Z.lor val (u32 (Z.shiftl r1 16)) in
  mret (0, Some val).

(** [for (i = n - 1; i >= 0; i--) { temp <<= 16; temp |= read(DATA0 + i); }]
    on a [u64] accumulator; the [int] read is converted to [u64]. *)
Fixpoint read_slots (n : nat) (temp : Z) : M Z :=
  match n with
  | O => mret temp
  | S i =>
      let temp := u64 (Z.shiftl temp 16) in
      r <- bus_read (REG_MII_DATA0 + Z.of_nat i) ;;
      let temp := Z.lor temp (u64 r) in
      read_slots i temp
  end.

Definition b53_mdio_read48 (page reg : Z) : M (Z * option Z) :=
  ret <- b53_mdio_op page reg REG_MII_ADDR_READ ;;
  if negb (ret =? 0) then mret (ret, None) else
  temp <- read_slots 3 0 ;;
  mret (0, Some temp).

Definition b53_mdio_read64 (page reg : Z) : M (Z * option Z) :=
  ret <- b53_mdio_op page reg REG_MII_ADDR_READ ;;
  if negb (ret =? 0) then mret (ret, None) else
  temp <- read_slots 4 0 ;;
  mret (0, Some temp).

Definition b53_mdio_write8 (page reg value : Z) : M Z :=
  ret <- bus_write REG_MII_DATA0 value ;;
  if negb (ret =? 0) then mret ret else
  b53_mdio_op page reg REG_MII_ADDR_WRITE.

Definition b53_mdio_write16 (page reg value : Z) : M Z :=
  ret <- bus_write REG_MII_DATA0 value ;;
  if negb (ret =? 0) then mret ret else
  b53_mdio_op page reg REG_MII_ADDR_WRITE.

(** The staging loop of the wide writes,
    [for (i = 0; i < n; i++) { ret = write(DATA0 + i, temp & 0xffff);
    if (ret) return ret; temp >>= 16; }].  It returns the status that
    ended the loop early, or 0 when the loop ran to its end. *)
Fixpoint stage (n : nat) (i temp : Z) : M Z :=
  match n with
  | O => mret 0
  | S n' =>
      ret <- bus_write (REG_MII_DATA0 + i) (Z.land temp 0xffff) ;;
      if negb (ret =? 0) then mret ret else
      stage n' (i + 1) (Z.shiftr temp 16)
  end.

Definition b53_mdio_write32 (page reg value : Z) : M Z :=
  ret <- stage 2 0 value ;;
  if negb (ret =? 0) then mret ret else
  b53_mdio_op page reg REG_MII_ADDR_WRITE.

Definition b53_mdio_write48 (page reg value : Z) : M Z :=
  ret <- stage 3 0 value ;;
  if negb (ret =? 0) then mret ret else
  b53_mdio_op page reg REG_MII_ADDR_WRITE.

Definition b53_mdio_write64 (page reg value : Z) : M Z :=
  ret <- stage 4 0 value ;;
  if negb (ret =? 0) then mret ret else
  b53_mdio_op page reg REG_MII_ADDR_WRITE.

(** [struct b53_io_ops] and the table [b53_mdio_ops]. *)
Record b53_io_ops : Type := {
  read8 : Z -> Z -> M (Z * option Z);
  read16 : Z -> Z -> M (Z * option Z);
  read32 : Z -> Z -> M (Z * option Z);
  read48 : Z -> Z -> M (Z * option Z);
  read64 : Z -> Z -> M (Z * option Z);
  write8 : Z -> Z -> Z -> M Z;
  write16 : Z -> Z -> Z -> M Z;
  write32 : Z -> Z -> Z -> M Z;
  write48 : Z -> Z -> Z -> M Z;
  write64 : Z -> Z -> Z -> M Z
}.

Definition b53_mdio_ops : b53_io_ops := {|
  read8 := b53_mdio_read8;
  read16 := b53_mdio_read16;
  read32 := b53_mdio_read32;
  read48 := b53_mdio_read48;
  read64 := b53_mdio_read64;
  write8 := b53_mdio_write8;
  write16 := b53_mdio_write16;
  write32 := b53_mdio_write32;
  write48 := b53_mdio_write48;
  write64 := b53_mdio_write64
|}.

(** Selection of an entry of the table by width. *)
Definition io_read (ops : b53_io_ops) (w : width) : Z -> Z -> M (Z * option Z) :=
  match w with
  | W8 => read8 ops | W16 => read16 ops | W32 => read32 ops
  | W48 => read48 ops | W64 => read64 ops
  end.

Definition io_write (ops : b53_io_ops) (w : width) : Z -> Z -> Z -> M Z :=
  match w with
  | W8 => write8 ops | W16 => write16 ops | W32 => write32 ops
  | W48 => write48 ops | W64 => write64 ops
  end.

(** One of the ten accesses, and its status. *)
Inductive access : Type :=
| Rd (w : width)
| Wr (w : width) (value : Z).

Definition b53_access (a : access) (page reg : Z) : M Z :=
  match a with
  | Rd w => rv <- io_read b53_mdio_ops w page reg ;; mret (fst rv)
  | Wr w value => io_write b53_mdio_ops w page reg value
  end.

(** The handle [b53_phy_probe] builds on the bus of the PHY device:
    [b53_switch_alloc(.., &b53_mdio_ops, phydev->bus)] followed by
    [dev->current_page = 0xff].  Registration of the switch and the PHY
    bookkeeping that follow are not part of the register access
    protocol. *)
Definition b53_phy_probe (b : B) : b53_device :=
  {| priv := b; current_page := 0xff |}.

End Driver.

Arguments b53_device B : clear implicits.
Arguments M B A : clear implicits.

(** ** Big-step descriptions of the runs

    The possible runs of the completion loop, of [b53_mdio_op] and of
    the ten accessors, as relations between the device handle a call
    starts from and its outcome (status, final handle, events).  The
    functions above are shown to satisfy them below. *)

Section Runs.

Context {B : Type} {bus : mii_bus B}.

Definition with_bus (d : b53_device B) (b : B) : b53_device B :=
  {| priv := b; current_page := current_page d |}.

(** The completion loop. *)
Inductive poll_run : nat -> Z -> b53_device B -> Z * b53_device B * list event -> Prop :=
| poll_out i d : poll_run 0 i d (i, d, [])
| poll_clear n i d r b :
    mdiobus_read (priv d) B53_PSEUDO_PHY REG_MII_ADDR = (r, b) ->
    pending r = false ->
    poll_run (S n) i d (i, with_bus d b, [EvRead REG_MII_ADDR r])
| poll_again n i d r b x :
    mdiobus_read (priv d) B53_PSEUDO_PHY REG_MII_ADDR = (r, b) ->
    pending r = true ->
    poll_run n (i + 1) (with_bus d b) x ->
    poll_run (S n) i d
      (result x, final x, EvRead REG_MII_ADDR r :: EvSleep :: trace x).

(** The operation sequencer; [page_word] and [addr_word] are the words
    it writes to the page and to the address register. *)
Definition page_word (page : Z) : Z :=
  u16 (Z.lor (Z.shiftl page 8) REG_MII_PAGE_ENABLE).

Definition addr_word (reg op : Z) : Z :=
  u16 (Z.lor (Z.shiftl reg 8) op).

Inductive page_select (page : Z) (d : b53_device B) :
  Z -> b53_device B -> list event -> Prop :=
| sel_cached :
    current_page d = page -> page_select page d 0 d []
| sel_failed r b :
    current_page d <> page ->
    mdiobus_write (priv d) B53_PSEUDO_PHY REG_MII_PAGE (page_word page) = (r, b) ->
    r <> 0 ->
    page_select page d r (with_bus d b) [EvWrite REG_MII_PAGE (page_word page) r]
| sel_written b :
    current_page d <> page ->
    mdiobus_write (priv d) B53_PSEUDO_PHY REG_MII_PAGE (page_word page) = (0, b) ->
    page_select page d 0 {| priv := b; current_page := page |}
      [EvWrite REG_MII_PAGE (page_word page) 0].

Inductive op_run (page reg op : Z) (d : b53_device B) :
  Z * b53_device B * list event -> Prop :=
| op_select_failed r d1 sel :
    page_select page d r d1 sel -> r <> 0 ->
    op_run page reg op d (r, d1, sel)
| op_addr_failed d1 sel r b :
    page_select page d 0 d1 sel ->
    mdiobus_write (priv d1) B53_PSEUDO_PHY REG_MII_ADDR (addr_word reg op) = (r, b) ->
    r <> 0 ->
    op_run page reg op d
      (r, with_bus d1 b, sel ++ [EvWrite REG_MII_ADDR (addr_word reg op) r])
| op_polled d1 sel b x :
    page_select page d 0 d1 sel ->
    mdiobus_write (priv d1) B53_PSEUDO_PHY REG_MII_ADDR (addr_word reg op) = (0, b) ->
    poll_run 5 0 (with_bus d1 b) x ->
    op_run page reg op d
      (if result x =? 5 then - EIO else 0, final x,
       sel ++ EvWrite REG_MII_ADDR (addr_word reg op) 0
           :: trace x ++ (if result x =? 5 then [EvWarn] else [])).

(** What [stage n i temp] puts on the bus when no write fails. *)
Fixpoint stage_list (n : nat) (i temp : Z) : list (Z * Z) :=
  match n with
  | O => []
  | S n' => (REG_MII_DATA0 + i, Z.land temp 0xffff)
            :: stage_list n' (i + 1) (Z.shiftr temp 16)
  end.

(** The ten accessors. *)
Definition opcode (a : access) : Z :=
  match a with
  | Rd _ => REG_MII_ADDR_READ
  | Wr _ _ => REG_MII_ADDR_WRITE
  end.

Definition access_stage (a : access) : list (Z * Z) :=
  match a with
  | Rd _ => []
  | Wr w value => staged w value
  end.

Inductive access_run (a : access) (page reg : Z) (d : b53_device B) :
  Z * b53_device B * list event -> Prop :=
| acc_abort pre sreg v r d1 :
    Forall (fun e => is_ok_slot_write e = true) pre ->
    is_slot sreg = true -> r <> 0 ->
    current_page d1 = current_page d ->
    access_run a page reg d (r, d1, pre ++ [EvWrite sreg v r])
| acc_op pre d1 x post d2 :
    Forall (fun e => is_ok_slot_write e = true) pre ->
    slot_writes pre = access_stage a ->
    current_page d1 = current_page d ->
    op_run page reg (opcode a) d1 x ->
    Forall (fun e => is_slot_read e = true) post ->
    (result x <> 0 -> post = []) ->
    current_page d2 = current_page (final x) ->
    access_run a page reg d (result x, d2, pre ++ trace x ++ post).

Definition staging_ok (w : width) (value : Z) (d : b53_device B)
  (x : Z * b53_device B * list event) : Prop :=
  current_page (final x) = current_page d /\
  ((result x = 0 /\ Forall (fun e => is_ok_slot_write e = true) (trace x) /\
    slot_writes (trace x) = staged w value) \/
   (result x <> 0 /\
    exists pre sreg v, trace x = pre ++ [EvWrite sreg v (result x)] /\
      is_slot sreg = true /\ Forall (fun e => is_ok_slot_write e = true) pre)).

End Runs.

(** ** Two transports to run the driver on *)

(** The fault-free simulated transport of the round-trip property: a
    register file in which every write succeeds and every register
    retains what was written, so the four data slots hold what was
    staged.  A word written to the address register is executed at once:
    it reads back with its two opcode bits clear. *)
Record sim_bus : Type := { sim_regs : Z -> Z }.

Definition sim_init : sim_bus := {| sim_regs := fun _ => 0 |}.

Definition sim_write (s : sim_bus) (phy reg val : Z) : Z * sim_bus :=
  let stored := if reg =? REG_MII_ADDR then Z.ldiff val 3 else val in
  (0, {| sim_regs := fun r => if r =? reg then stored else sim_regs s r |}).

Definition sim_read (s : sim_bus) (phy reg : Z) : Z * sim_bus :=
  (sim_regs s reg, s).

#[export] Instance sim_mii_bus : mii_bus sim_bus :=
  {| mdiobus_write := sim_write; mdiobus_read := sim_read |}.

(** A handle on the simulated device with a given cached page. *)
Definition sim_dev (s : sim_bus) (cur : Z) : b53_device sim_bus :=
  {| priv := s; current_page := cur |}.

(** A scripted transport: the list holds the [int] each coming
    transaction returns, in order; once it is used up every transaction
    returns 0. *)
Definition script_bus : Type := list Z.

Definition script_next (s : script_bus) : Z * script_bus :=
  match s with
  | [] => (0, [])
  | r :: s' => (r, s')
  end.

#[export] Instance script_mii_bus : mii_bus script_bus :=
  {| mdiobus_write := fun s _ _ _ => script_next s;
     mdiobus_read := fun s _ _ => script_next s |}.

(** A transport on which every transaction returns the same [int]. *)
Inductive const_bus : Type := ConstBus (wr rd : Z).

#[export] Instance const_mii_bus : mii_bus const_bus :=
  {| mdiobus_write := fun s _ _ _ => (match s with ConstBus wr _ => wr end, s);
     mdiobus_read := fun s _ _ => (match s with ConstBus _ rd => rd end, s) |}.

(** ** Further vocabulary for traces and values *)

Definition is_sleep (e : event) : bool :=
  match e with EvSleep => true | _ => false end.

Definition is_warn (e : event) : bool :=
  match e with EvWarn => true | _ => false end.

(** A bus transaction of either direction. *)
Definition is_bus (e : event) : bool :=
  match e with EvWrite _ _ _ | EvRead _ _ => true | _ => false end.

(** A poll read that reports the operation still pending. *)
Definition is_pending_read (e : event) : bool :=
  match e with EvRead reg ret => (reg =? REG_MII_ADDR) && pending ret | _ => false end.

(** The data-slot reads of a trace, as (register, returned int) pairs. *)
Fixpoint slot_reads (tr : list event) : list (Z * Z) :=
  match tr with
  | [] => []
  | EvRead reg ret :: tr' =>
      if is_slot reg then (reg, ret) :: slot_reads tr' else slot_reads tr'
  | _ :: tr' => slot_reads tr'
  end.

(** The data-slot registers a read accessor reads, in the order of its
    code: [read32] reads slot 0 then slot 1, the loops of [read48] and
    [read64] run from the highest slot down to slot 0. *)
Definition read_regs (w : width) : list Z :=
  match w with
  | W8 | W16 => [REG_MII_DATA0]
  | W32 => [REG_MII_DATA0; REG_MII_DATA1]
  | W48 => [REG_MII_DATA2; REG_MII_DATA1; REG_MII_DATA0]
  | W64 => [REG_MII_DATA3; REG_MII_DATA2; REG_MII_DATA1; REG_MII_DATA0]
  end.

(** The read events of registers [regs] returning [rs]. *)
Definition read_events (regs rs : list Z) : list event :=
  map (fun p => EvRead (fst p) (snd p)) (combine regs rs).

(** The value a read accessor computes from the [int]s its slot reads
    returned, given in the order read. *)
Definition assemble (w : width) (rs : list Z) : Z :=
  match w with
  | W8 => u8 (Z.land (nth 0 rs 0) 0xff)
  | W16 => u16 (nth 0 rs 0)
  | W32 => Z.lor (u32 (nth 0 rs 0)) (u32 (Z.shiftl (nth 1 rs 0) 16))
  | W48 | W64 =>
      fold_left (fun temp r => Z.lor (u64 (Z.shiftl temp 16)) (u64 r)) rs 0
  end.

(** The [int] a list of slot reads holds for slot [i] (0 when the slot
    was not read). *)
Definition slot_val (srs : list (Z * Z)) (i : nat) : Z :=
  match find (fun p => fst p =? REG_MII_DATA0 + Z.of_nat i) srs with
  | Some p => snd p
  | None => 0
  end.

(** Little-endian combination of [n] 16-bit slots:
    [f 0 + f 1 * 2^16 + .. + f (n-1) * 2^(16*(n-1))]. *)
Fixpoint le_value (n : nat) (f : nat -> Z) : Z :=
  match n with
  | O => 0
  | S n' => le_value n' f + f n' * 2 ^ (16 * Z.of_nat n')
  end.

(** Width of the C type a read accessor stores into: [u8], [u16],
    [u32], and [u64] for both the 48-bit and the 64-bit accessor. *)
Definition ctype_bits (w : width) : Z :=
  match w with W8 => 8 | W16 => 16 | W32 => 32 | W48 | W64 => 64 end.

(** The page the bus was last told to select: the page field of the
    last page-select write of the trace that returned 0, or [init] when
    there is none. *)
Definition last_selected (tr : list event) (init : Z) : Z :=
  fold_left
    (fun cur e =>
       match e with
       | EvWrite reg val ret =>
           if (reg =? REG_MII_PAGE) && (ret =? 0) then Z.shiftr val 8 else cur
       | _ => cur
       end)
    tr init.

(** Width of an access. *)
Definition access_width (a : access) : width :=
  match a with Rd w => w | Wr w _ => w end.

(** The bus transactions an access may issue: writes to the page and
    address registers, reads of the address register, and the data slots
    below the slot count of its width, written by a write-N only and
    read by a read-N only. *)
Definition slot_in_width (w : width) (sreg : Z) : bool :=
  (REG_MII_DATA0 <=? sreg) && (sreg <? REG_MII_DATA0 + Z.of_nat (slots w)).

Definition allowed_event (a : access) (e : event) : bool :=
  match e with
  | EvWrite wreg _ _ =>
      (wreg =? REG_MII_PAGE) || (wreg =? REG_MII_ADDR) ||
      match a with Wr w _ => slot_in_width w wreg | Rd _ => false end
  | EvRead rreg _ =>
      (rreg =? REG_MII_ADDR) ||
      match a with Rd w => slot_in_width w rreg | Wr _ _ => false end
  | EvSleep | EvWarn => true
  end.

(** A caller's sequence of accesses through one handle, each given with
    its page and register; the statuses are collected in order. *)
Fixpoint run_accesses {B : Type} {bus : mii_bus B}
  (l : list (access * Z * Z)) : M B (list Z) :=
  match l with
  | [] => mret []
  | (a, page, reg) :: l' =>
      mbind (b53_access a page reg) (fun r =>
      mbind (run_accesses l') (fun rs => mret (r :: rs)))
  end.

(** * Properties *)

(** ** Counting events *)

Lemma count_app p (a b : list event) : count p (a ++ b) = (count p a + count p b)%nat.
Proof. unfold count. now rewrite filter_app, length_app. Qed.

Lemma count_cons p e (tr : list event) :
  count p (e :: tr) = ((if p e then 1 else 0) + count p tr)%nat.
Proof. unfold count; simpl. now destruct (p e). Qed.

Lemma count_nil p : count p [] = 0%nat.
Proof. reflexivity. Qed.

Ltac counts := repeat (rewrite count_app || rewrite count_cons || rewrite count_nil).

Lemma count_zero_In p (tr : list event) e :
  count p tr = 0%nat -> In e tr -> p e = false.
Proof.
  induction tr as [|a tr IH]; simpl; [tauto|].
  rewrite count_cons. intros Hc [->|Hin].
  - destruct (p e); [discriminate|reflexivity].
  - apply IH; [lia|assumption].
Qed.

Section Proofs.

Context {B : Type} {bus : mii_bus B}.
Implicit Types d : b53_device B.

(** *** The completion loop *)

Lemma poll_poll_run n : forall i d, poll_run n i d (poll n i d).
Proof.
  induction n as [|n IH]; intros i d; [constructor|].
  cbn [poll]. unfold mbind, bus_read, usleep_range, mret.
  destruct (mdiobus_read (priv d) B53_PSEUDO_PHY REG_MII_ADDR) as [r b] eqn:Er.
  destruct (Z.land (u16 r) _ =? 0) eqn:Ep.
  - apply poll_clear; [assumption|]. unfold pending. now rewrite Ep.
  - specialize (IH (i + 1) {| priv := b; current_page := current_page d |}).
    destruct (poll n (i + 1) _) as [[i' d'] t'] eqn:Ex.
    apply (poll_again n i d r b (i', d', t') Er);
      [unfold pending; now rewrite Ep|exact IH].
Qed.

Lemma poll_run_page n i d x :
  poll_run n i d x -> current_page (final x) = current_page d.
Proof. induction 1; simpl; auto. Qed.

Lemma poll_run_range n i d x :
  poll_run n i d x -> i <= result x <= i + Z.of_nat n.
Proof. induction 1; unfold result in *; simpl fst in *; lia. Qed.

Lemma poll_run_count n i d x :
  poll_run n i d x -> (count is_poll (trace x) <= n)%nat.
Proof.
  induction 1; unfold trace in *; simpl snd in *; counts; simpl; lia.
Qed.

Lemma poll_run_timeout n i d x :
  poll_run n i d x ->
  count is_clear_poll (trace x) = 0%nat ->
  result x = i + Z.of_nat n /\ count is_poll (trace x) = n.
Proof.
  induction 1; unfold trace, result in *; simpl fst in *; simpl snd in *;
    counts; simpl.
  - intros _. split; [lia|reflexivity].
  - rewrite H0. simpl. discriminate.
  - rewrite H0. simpl. intros Hc. destruct (IHpoll_run Hc) as [-> ->].
    split; [lia|reflexivity].
Qed.

Lemma poll_run_clear_last n i d x e :
  poll_run n i d x ->
  In e (trace x) -> is_clear_poll e = true ->
  result x < i + Z.of_nat n /\ exists pre, trace x = pre ++ [e].
Proof.
  induction 1; unfold trace, result in *; simpl fst in *; simpl snd in *.
  - intros [].
  - intros [<-|[]] _. split; [lia|]. now exists [].
  - intros [<-|[<-|Hin]] He.
    + simpl in He. rewrite H0 in He. discriminate.
    + discriminate.
    + destruct (IHpoll_run Hin He) as [Hlt [pre Hpre]].
      split; [lia|]. exists (EvRead REG_MII_ADDR r :: EvSleep :: pre).
      simpl. now rewrite Hpre.
Qed.

(** *** The operation sequencer *)

Lemma u16_idem x : u16 (u16 x) = u16 x.
Proof. unfold u16. apply Z.mod_mod. lia. Qed.

Lemma b53_mdio_op_run page reg op d :
  op_run page reg op d (b53_mdio_op page reg op d).
Proof.
  unfold b53_mdio_op, mbind, get_current_page, bus_write, set_current_page,
    WARN_ON, mret.
  rewrite !u16_idem. fold (page_word page) (addr_word reg op).
  cbn [priv current_page].
  destruct (current_page d =? page) eqn:Ecur; cbn [negb].
  - apply Z.eqb_eq in Ecur.
    pose proof (sel_cached page d Ecur) as Hsel.
    cbn [Z.eqb negb app].
    destruct (mdiobus_write (priv d) _ REG_MII_ADDR _) as [r b] eqn:Ea.
    destruct (r =? 0) eqn:Er; cbn [negb].
    + apply Z.eqb_eq in Er; subst r.
      pose proof (poll_poll_run 5 0 (with_bus d b)) as Hp.
      unfold with_bus in Hp.
      destruct (poll 5 0 _) as [[i d2] tp] eqn:Ep.
      pose proof (op_polled page reg op d d [] b (i, d2, tp) Hsel Ea Hp) as H.
      unfold result, final, trace in H; cbn [fst snd app] in H.
      destruct (i =? 5); exact H.
    + apply Z.eqb_neq in Er.
      exact (op_addr_failed page reg op d d [] r b Hsel Ea Er).
  - apply Z.eqb_neq in Ecur.
    destruct (mdiobus_write (priv d) _ REG_MII_PAGE _) as [r0 b0] eqn:Es.
    destruct (r0 =? 0) eqn:Er0; cbn [negb].
    + apply Z.eqb_eq in Er0; subst r0.
      pose proof (sel_written page d b0 Ecur Es) as Hsel.
      cbn [Z.eqb negb app priv current_page].
      destruct (mdiobus_write b0 _ REG_MII_ADDR _) as [r b] eqn:Ea.
      destruct (r =? 0) eqn:Er; cbn [negb].
      * apply Z.eqb_eq in Er; subst r.
        pose proof (poll_poll_run 5 0 {| priv := b; current_page := page |}) as Hp.
        destruct (poll 5 0 _) as [[i d2] tp] eqn:Ep.
        pose proof (op_polled page reg op d _ _ b (i, d2, tp) Hsel Ea Hp) as H.
        unfold result, final, trace in H; cbn [fst snd app] in H.
        destruct (i =? 5); exact H.
      * apply Z.eqb_neq in Er.
        exact (op_addr_failed page reg op d _ _ r b Hsel Ea Er).
    + cbn beta iota. rewrite Er0. cbn [negb app]. apply Z.eqb_neq in Er0.
      apply op_select_failed; [|assumption].
      exact (sel_failed page d r0 b0 Ecur Es Er0).
Qed.

Lemma poll_run_count0 p n i d x :
  (forall ret, p (EvRead REG_MII_ADDR ret) = false) -> p EvSleep = false ->
  poll_run n i d x -> count p (trace x) = 0%nat.
Proof.
  intros Hr Hs. induction 1; unfold trace in *; simpl snd in *; counts;
    rewrite ?Hr, ?Hs; lia.
Qed.

Lemma page_select_page page d r d1 sel :
  page_select page d r d1 sel ->
  (r = 0 -> current_page d1 = page) /\ (r <> 0 -> current_page d1 = current_page d).
Proof. destruct 1; simpl; split; intros; congruence. Qed.

Lemma page_select_count page d r d1 sel :
  page_select page d r d1 sel ->
  count is_page_select sel = if current_page d =? page then 0%nat else 1%nat.
Proof.
  destruct 1 as [Hc|r b Hc _ _|b Hc _].
  - apply Z.eqb_eq in Hc. now rewrite Hc.
  - apply Z.eqb_neq in Hc. now rewrite Hc.
  - apply Z.eqb_neq in Hc. now rewrite Hc.
Qed.

Lemma page_select_count0 p page d r d1 sel :
  (forall val ret, p (EvWrite REG_MII_PAGE val ret) = false) ->
  page_select page d r d1 sel -> count p sel = 0%nat.
Proof. intros Hp. destruct 1; counts; rewrite ?Hp; reflexivity. Qed.

Section OpFacts.
Variables page reg op : Z.
Variable d : b53_device B.
Variable x : Z * b53_device B * list event.
Hypothesis Hrun : op_run page reg op d x.

Lemma op_run_page_selects :
  count is_page_select (trace x) = if current_page d =? page then 0%nat else 1%nat.
Proof.
  destruct Hrun as [r d1 sel Hs _|d1 sel r b Hs _ _|d1 sel b y Hs _ Hp];
    cbn [trace snd]; counts; rewrite (page_select_count _ _ _ _ _ Hs);
    rewrite ?(poll_run_count0 is_page_select _ _ _ _ (fun _ => eq_refl) eq_refl Hp);
    simpl; try lia.
  destruct (result y =? 5); counts; simpl; lia.
Qed.

Lemma op_run_success_page : result x = 0 -> current_page (final x) = page.
Proof.
  destruct Hrun as [r d1 sel Hs Hr|d1 sel r b Hs _ Hr|d1 sel b y Hs _ Hp];
    cbn [result final fst snd]; try congruence.
  intros _. rewrite (poll_run_page _ _ _ _ Hp). simpl.
  now apply (page_select_page _ _ _ _ _ Hs).
Qed.

Lemma op_run_page_update :
  current_page (final x) = current_page d \/
  (current_page (final x) = page /\
   exists rest, trace x = EvWrite REG_MII_PAGE (page_word page) 0 :: rest).
Proof.
  destruct Hrun as [r d1 sel Hs Hr|d1 sel r b Hs _ Hr|d1 sel b y Hs _ Hp];
    cbn [trace final fst snd].
  - left. now apply (page_select_page _ _ _ _ _ Hs).
  - inversion Hs; subst; simpl; [now left|congruence|].
    right. split; [reflexivity|]. eexists; reflexivity.
  - rewrite (poll_run_page _ _ _ _ Hp).
    inversion Hs; subst; simpl; [now left|congruence|].
    right. split; [reflexivity|]. eexists; reflexivity.
Qed.

Lemma op_run_first_select :
  current_page d <> page ->
  exists r rest, trace x = EvWrite REG_MII_PAGE (page_word page) r :: rest.
Proof.
  intros Hne.
  destruct Hrun as [r d1 sel Hs Hr|d1 sel r b Hs _ Hr|d1 sel b y Hs _ Hp];
    cbn [trace snd]; inversion Hs; subst; try congruence;
    simpl; do 2 eexists; reflexivity.
Qed.

Lemma op_run_count0 p :
  (forall val ret, p (EvWrite REG_MII_PAGE val ret) = false) ->
  (forall val ret, p (EvWrite REG_MII_ADDR val ret) = false) ->
  (forall ret, p (EvRead REG_MII_ADDR ret) = false) ->
  p EvSleep = false -> p EvWarn = false ->
  count p (trace x) = 0%nat.
Proof.
  intros Hpg Ha Hr Hs Hw.
  destruct Hrun as [r d1 sel Hsel _|d1 sel r b Hsel _ _|d1 sel b y Hsel _ Hp];
    cbn [trace snd]; counts;
    rewrite (page_select_count0 p _ _ _ _ _ Hpg Hsel), ?Ha;
    rewrite ?(poll_run_count0 p _ _ _ _ Hr Hs Hp); try reflexivity.
  destruct (result y =? 5); counts; rewrite ?Hw; reflexivity.
Qed.

Lemma op_run_polls : (count is_poll (trace x) <= 5)%nat.
Proof.
  destruct Hrun as [r d1 sel Hsel _|d1 sel r b Hsel _ _|d1 sel b y Hsel _ Hp];
    cbn [trace snd]; counts;
    rewrite (page_select_count0 is_poll _ _ _ _ _ (fun _ _ => eq_refl) Hsel);
    simpl; try lia.
  pose proof (poll_run_count _ _ _ _ Hp).
  destruct (result y =? 5); counts; simpl; lia.
Qed.

Lemma op_run_result :
  count is_failed_write (trace x) = 0%nat -> result x = 0 \/ result x = - EIO.
Proof.
  destruct Hrun as [r d1 sel Hsel Hr|d1 sel r b Hsel _ Hr|d1 sel b y Hsel _ Hp];
    cbn [trace result fst snd].
  - inversion Hsel; subst; [congruence| |congruence].
    counts. simpl. apply Z.eqb_neq in Hr. rewrite Hr. discriminate.
  - counts. simpl. apply Z.eqb_neq in Hr. rewrite Hr. simpl. lia.
  - intros _. destruct (result y =? 5); auto.
Qed.

Lemma op_run_timeout :
  count is_failed_write (trace x) = 0%nat ->
  count is_clear_poll (trace x) = 0%nat ->
  result x = - EIO /\ count is_poll (trace x) = 5%nat.
Proof.
  destruct Hrun as [r d1 sel Hsel Hr|d1 sel r b Hsel _ Hr|d1 sel b y Hsel _ Hp];
    cbn [trace result fst snd].
  - inversion Hsel; subst; [congruence| |congruence].
    counts. simpl. apply Z.eqb_neq in Hr. rewrite Hr. discriminate.
  - counts. simpl. apply Z.eqb_neq in Hr. rewrite Hr. simpl. lia.
  - intros _. counts. simpl.
    rewrite (page_select_count0 is_clear_poll _ _ _ _ _ (fun _ _ => eq_refl) Hsel).
    rewrite (page_select_count0 is_poll _ _ _ _ _ (fun _ _ => eq_refl) Hsel).
    intros Hc.
    assert (Hy : count is_clear_poll (trace y) = 0%nat) by lia.
    destruct (poll_run_timeout _ _ _ _ Hp Hy) as [Hres Hcnt].
    rewrite Hres, Hcnt. simpl. split; [reflexivity|].
    counts; simpl; lia.
Qed.

Lemma op_run_clear_last e :
  In e (trace x) -> is_clear_poll e = true ->
  result x = 0 /\ exists pre, trace x = pre ++ [e].
Proof.
  intros Hin He.
  assert (Hsel0 : forall r d1 sel, page_select page d r d1 sel -> ~ In e sel).
  { intros r d1 sel Hsel Hi.
    pose proof (page_select_count0 is_clear_poll _ _ _ _ _ (fun _ _ => eq_refl) Hsel) as Hc.
    rewrite (count_zero_In _ _ _ Hc Hi) in He. discriminate. }
  destruct Hrun as [r d1 sel Hsel Hr|d1 sel r b Hsel _ Hr|d1 sel b y Hsel _ Hp];
    cbn [trace result fst snd] in *.
  - now apply (Hsel0 _ _ _ Hsel) in Hin.
  - apply in_app_or in Hin. destruct Hin as [Hin|[<-|[]]]; [|discriminate].
    now apply (Hsel0 _ _ _ Hsel) in Hin.
  - apply in_app_or in Hin. destruct Hin as [Hin|[<-|Hin]]; [|discriminate|].
    { now apply (Hsel0 _ _ _ Hsel) in Hin. }
    apply in_app_or in Hin. destruct Hin as [Hin|Hin].
    + destruct (poll_run_clear_last _ _ _ _ e Hp Hin He) as [Hlt [pre Hpre]].
      replace (result y =? 5) with false by (symmetry; apply Z.eqb_neq; lia).
      split; [reflexivity|].
      exists (sel ++ EvWrite REG_MII_ADDR (addr_word reg op) 0 :: pre).
      rewrite Hpre, app_nil_r, <- app_assoc. reflexivity.
    + destruct (result y =? 5); [|destruct Hin].
      destruct Hin as [<-|[]]. discriminate.
Qed.

End OpFacts.

(** *** The slot loops *)

Lemma is_slot_data i : 0 <= i <= 3 -> is_slot (REG_MII_DATA0 + i) = true.
Proof.
  intros Hi. unfold is_slot, REG_MII_DATA0, REG_MII_DATA3.
  apply andb_true_intro; split; apply Z.leb_le; lia.
Qed.

Lemma u16_land t : u16 (Z.land t 0xffff) = Z.land t 0xffff.
Proof.
  unfold u16. change 0xffff with (Z.ones 16).
  rewrite Z.land_ones by lia. apply Z.mod_mod. lia.
Qed.

Lemma u16_as_land t : u16 t = Z.land t 0xffff.
Proof.
  unfold u16. change 0xffff with (Z.ones 16). now rewrite Z.land_ones by lia.
Qed.

Lemma slot_writes_app a b : slot_writes (a ++ b) = slot_writes a ++ slot_writes b.
Proof.
  induction a as [|e a IH]; [reflexivity|].
  destruct e as [reg val ret|reg ret| |]; simpl; rewrite ?IH; try reflexivity.
  now destruct (is_slot reg).
Qed.

Lemma stage_run n :
  forall i temp d, 0 <= i -> i + Z.of_nat n <= 4 ->
  let x := stage n i temp d in
  current_page (final x) = current_page d /\
  ((result x = 0 /\ Forall (fun e => is_ok_slot_write e = true) (trace x) /\
    slot_writes (trace x) = stage_list n i temp) \/
   (result x <> 0 /\
    exists pre reg v, trace x = pre ++ [EvWrite reg v (result x)] /\
      is_slot reg = true /\ Forall (fun e => is_ok_slot_write e = true) pre)).
Proof.
  induction n as [|n IH]; intros i temp d Hi Hn; cbn zeta.
  - split; [reflexivity|]. left. repeat split. constructor.
  - cbn [stage]. unfold mbind, bus_write, mret. rewrite u16_land.
    destruct (mdiobus_write (priv d) _ _ _) as [r b] eqn:Ew.
    assert (Hslot : is_slot (REG_MII_DATA0 + i) = true) by (apply is_slot_data; lia).
    destruct (r =? 0) eqn:Er; cbn [negb].
    + apply Z.eqb_eq in Er; subst r.
      specialize (IH (i + 1) (Z.shiftr temp 16)
                    {| priv := b; current_page := current_page d |}
                    ltac:(lia) ltac:(lia)).
      cbn zeta in IH.
      destruct (stage n (i + 1) _ _) as [[r' d'] t'].
      cbn [result final trace fst snd current_page app] in *.
      destruct IH as [Hpg [[Hr [Hall Hsw]]|[Hr (pre & reg & v & Ht & Hs & Hall)]]];
        (split; [exact Hpg|]).
      * left. split; [exact Hr|]. split.
        -- constructor; [|exact Hall]. cbn [is_ok_slot_write]. now rewrite Hslot.
        -- cbn [slot_writes]. now rewrite Hslot, Hsw.
      * right. split; [exact Hr|].
        exists (EvWrite (REG_MII_DATA0 + i) (Z.land temp 65535) 0 :: pre), reg, v.
        split; [now rewrite Ht|]. split; [exact Hs|].
        constructor; [|exact Hall]. cbn [is_ok_slot_write]. now rewrite Hslot.
    + apply Z.eqb_neq in Er.
      cbn [result final trace fst snd current_page app].
      split; [reflexivity|]. right. split; [exact Er|].
      exists [], (REG_MII_DATA0 + i), (Z.land temp 65535).
      repeat split; [exact Hslot|constructor].
Qed.

Lemma read_slots_run n :
  forall temp d, (n <= 4)%nat ->
  let x := read_slots n temp d in
  current_page (final x) = current_page d /\
  Forall (fun e => is_slot_read e = true) (trace x).
Proof.
  induction n as [|n IH]; intros temp d Hn; cbn zeta.
  - split; [reflexivity|constructor].
  - cbn [read_slots]. unfold mbind, bus_read.
    destruct (mdiobus_read (priv d) _ _) as [r b] eqn:Er.
    match goal with |- context [read_slots n ?t ?d'] =>
      specialize (IH t d' ltac:(lia)); cbn zeta in IH;
      destruct (read_slots n t d') as [[r' d''] t']
    end.
    cbn [result final trace fst snd current_page app] in *.
    destruct IH as [Hpg Hall]. split; [exact Hpg|].
    constructor; [|exact Hall]. cbn [is_slot_read]. apply is_slot_data. lia.
Qed.

(** *** The ten accessors *)

Lemma acc_op_eq a page reg d pre d1 x post d2 r tr :
  Forall (fun e => is_ok_slot_write e = true) pre ->
  slot_writes pre = access_stage a ->
  current_page d1 = current_page d ->
  op_run page reg (opcode a) d1 x ->
  Forall (fun e => is_slot_read e = true) post ->
  (result x <> 0 -> post = []) ->
  current_page d2 = current_page (final x) ->
  r = result x -> tr = pre ++ trace x ++ post ->
  access_run a page reg d (r, d2, tr).
Proof. intros; subst; now apply acc_op with (d1 := d1). Qed.

Lemma stage_list_staged w value :
  stage_list (slots w) 0 value = staged w value.
Proof.
  unfold staged.
  destruct w; cbn [slots stage_list seq map Z.of_nat Pos.of_succ_nat Pos.succ];
    rewrite ?Z.shiftr_shiftr by lia; cbn [Z.add Z.mul Pos.add Pos.mul Pos.succ Pos.add_carry];
    rewrite ?Z.shiftr_0_r; reflexivity.
Qed.

Ltac tidy_trace := cbn [trace snd app]; rewrite ?app_nil_r; reflexivity.

Lemma read_run w page reg d :
  access_run (Rd w) page reg d (b53_access (Rd w) page reg d).
Proof.
  pose proof (b53_mdio_op_run page reg REG_MII_ADDR_READ d) as Hop.
  assert (Hfail : forall r d1 t,
             op_run page reg REG_MII_ADDR_READ d (r, d1, t) -> r <> 0 ->
             access_run (Rd w) page reg d (r, d1, t)).
  { intros r d1 t H Hr.
    apply (acc_op_eq (Rd w) page reg d [] d (r, d1, t) [] d1);
      [constructor|reflexivity|reflexivity|exact H|constructor|reflexivity
      |reflexivity|reflexivity|tidy_trace]. }
  assert (Hok : forall d1 t post d2,
             op_run page reg REG_MII_ADDR_READ d (0, d1, t) ->
             Forall (fun e => is_slot_read e = true) post ->
             current_page d2 = current_page d1 ->
             access_run (Rd w) page reg d (0, d2, t ++ post)).
  { intros d1 t post d2 H Hpost Hpg.
    apply (acc_op_eq (Rd w) page reg d [] d (0, d1, t) post d2);
      [constructor|reflexivity|reflexivity|exact H|exact Hpost
      |cbn [result fst]; congruence|exact Hpg|reflexivity|tidy_trace]. }
  destruct w;
    unfold b53_access, io_read, b53_mdio_ops, read8, read16, read32, read48,
      read64, b53_mdio_read8, b53_mdio_read16, b53_mdio_read32, b53_mdio_read48,
      b53_mdio_read64, mbind;
    destruct (b53_mdio_op page reg REG_MII_ADDR_READ d) as [[r d1] t];
    (destruct (r =? 0) eqn:Er; cbn [negb];
     [apply Z.eqb_eq in Er; subst r
     |apply Z.eqb_neq in Er; unfold mret; cbn [fst]; rewrite ?app_nil_r;
      now apply Hfail]).
  - unfold bus_read, mret.
    destruct (mdiobus_read (priv d1) _ _) as [r0 b0]. cbn [fst].
    rewrite app_nil_r.
    apply (Hok d1); [exact Hop|repeat constructor|reflexivity].
  - unfold bus_read, mret.
    destruct (mdiobus_read (priv d1) _ _) as [r0 b0]. cbn [fst].
    rewrite app_nil_r.
    apply (Hok d1); [exact Hop|repeat constructor|reflexivity].
  - unfold bus_read, mret.
    destruct (mdiobus_read (priv d1) _ _) as [r0 b0]. cbn [priv current_page].
    destruct (mdiobus_read b0 _ _) as [r1 b1]. cbn [fst app].
    rewrite app_nil_r.
    apply (Hok d1); [exact Hop|repeat constructor|reflexivity].
  - pose proof (read_slots_run 3 0 d1 ltac:(lia)) as Hrs. cbn zeta in Hrs.
    destruct (read_slots 3 0 d1) as [[v d2] t2]. unfold mret. cbn [fst].
    cbn [final trace fst snd] in Hrs. destruct Hrs as [Hpg Hall].
    rewrite !app_nil_r.
    apply (Hok d1); [exact Hop|exact Hall|exact Hpg].
  - pose proof (read_slots_run 4 0 d1 ltac:(lia)) as Hrs. cbn zeta in Hrs.
    destruct (read_slots 4 0 d1) as [[v d2] t2]. unfold mret. cbn [fst].
    cbn [final trace fst snd] in Hrs. destruct Hrs as [Hpg Hall].
    rewrite !app_nil_r.
    apply (Hok d1); [exact Hop|exact Hall|exact Hpg].
Qed.

Lemma write_run_from w value page reg d (st : M B Z) :
  staging_ok w value d (st d) ->
  access_run (Wr w value) page reg d
    (mbind st (fun ret => if negb (ret =? 0) then mret ret
                          else b53_mdio_op page reg REG_MII_ADDR_WRITE) d).
Proof.
  unfold staging_ok, mbind. destruct (st d) as [[r d1] pre].
  cbn [result final trace fst snd].
  intros [Hpg [[-> [Hall Hsw]]|[Hr (pre' & sreg & v & -> & Hs & Hall)]]].
  - cbn [Z.eqb negb].
    pose proof (b53_mdio_op_run page reg REG_MII_ADDR_WRITE d1) as Hop.
    destruct (b53_mdio_op page reg REG_MII_ADDR_WRITE d1) as [[r d2] t] eqn:Eop.
    apply (acc_op_eq (Wr w value) page reg d pre d1 (r, d2, t) [] d2);
      [exact Hall|exact Hsw|exact Hpg|exact Hop|constructor|reflexivity
      |reflexivity|reflexivity|tidy_trace].
  - apply Z.eqb_neq in Hr. rewrite Hr. cbn [negb]. unfold mret.
    rewrite app_nil_r. apply Z.eqb_neq in Hr.
    now apply acc_abort.
Qed.

Lemma stage_staging_ok w value d :
  (2 <= slots w)%nat -> staging_ok w value d (stage (slots w) 0 value d).
Proof.
  intros Hw.
  pose proof (stage_run (slots w) 0 value d ltac:(lia)) as H.
  rewrite stage_list_staged in H. apply H. destruct w; simpl; lia.
Qed.

Lemma bus_write_staging_ok w value d :
  slots w = 1%nat -> staging_ok w value d (bus_write REG_MII_DATA0 value d).
Proof.
  intros Hw. unfold staging_ok, bus_write.
  destruct (mdiobus_write (priv d) _ _ _) as [r b].
  cbn [result final trace fst snd current_page].
  split; [reflexivity|].
  destruct (Z.eq_dec r 0) as [->|Hr].
  - left. split; [reflexivity|]. split.
    + repeat constructor.
    + unfold staged. rewrite Hw. cbn [seq map slot_writes Z.of_nat].
      change (is_slot REG_MII_DATA0) with true. cbn iota.
      now rewrite Z.shiftr_0_r, Z.add_0_r, u16_as_land.
  - right. split; [exact Hr|].
    exists [], REG_MII_DATA0, (u16 value). repeat split. constructor.
Qed.

Lemma write_run w value page reg d :
  access_run (Wr w value) page reg d (b53_access (Wr w value) page reg d).
Proof.
  destruct w; apply write_run_from;
    first [now apply bus_write_staging_ok
          |apply (stage_staging_ok W32); simpl; lia
          |apply (stage_staging_ok W48); simpl; lia
          |apply (stage_staging_ok W64); simpl; lia].
Qed.

Theorem b53_access_run a page reg d :
  access_run a page reg d (b53_access a page reg d).
Proof. destruct a; [apply read_run|apply write_run]. Qed.

End Proofs.

(** ** Facts about the ten accessors *)

Lemma Forall_count0 (p q : event -> bool) (l : list event) :
  Forall (fun e => p e = true) l ->
  (forall e, p e = true -> q e = false) ->
  count q l = 0%nat.
Proof.
  intros Hall Hpq. induction Hall as [|e l He _ IH]; [reflexivity|].
  rewrite count_cons, (Hpq e He), IH. reflexivity.
Qed.

Lemma slot_not_page reg : is_slot reg = true -> (reg =? REG_MII_PAGE) = false.
Proof.
  unfold is_slot, REG_MII_DATA0, REG_MII_DATA3, REG_MII_PAGE.
  intros H. apply andb_true_iff in H. destruct H as [H1 H2].
  apply Z.leb_le in H1, H2. apply Z.eqb_neq. lia.
Qed.

Lemma slot_not_addr reg : is_slot reg = true -> (reg =? REG_MII_ADDR) = false.
Proof.
  unfold is_slot, REG_MII_DATA0, REG_MII_DATA3, REG_MII_ADDR.
  intros H. apply andb_true_iff in H. destruct H as [H1 H2].
  apply Z.leb_le in H1, H2. apply Z.eqb_neq. lia.
Qed.

Lemma ok_slot_write_not_page_select e :
  is_ok_slot_write e = true -> is_page_select e = false.
Proof.
  destruct e as [reg val ret| | |]; try discriminate. simpl.
  intros H. apply andb_true_iff in H. now apply slot_not_page.
Qed.

Lemma ok_slot_write_not_trigger e :
  is_ok_slot_write e = true -> is_trigger e = false.
Proof.
  destruct e as [reg val ret| | |]; try discriminate. simpl.
  intros H. apply andb_true_iff in H. now apply slot_not_addr.
Qed.

Lemma ok_slot_write_not_failed e :
  is_ok_slot_write e = true -> is_failed_slot_write e = false.
Proof.
  destruct e as [reg val ret| | |]; try discriminate. simpl.
  intros H. apply andb_true_iff in H. destruct H as [-> ->]. reflexivity.
Qed.

Lemma ok_slot_write_not_slot_read e :
  is_ok_slot_write e = true -> is_slot_read e = false.
Proof. destruct e; try discriminate. reflexivity. Qed.

Lemma slot_read_not_page_select e :
  is_slot_read e = true -> is_page_select e = false.
Proof. destruct e; try discriminate. reflexivity. Qed.

Lemma slot_read_not_failed e :
  is_slot_read e = true -> is_failed_slot_write e = false.
Proof. destruct e; try discriminate. reflexivity. Qed.

Lemma slot_read_not_slot_write e :
  is_slot_read e = true -> is_slot_write e = false.
Proof. destruct e; try discriminate. reflexivity. Qed.

Lemma slot_writes_nil l : count is_slot_write l = 0%nat -> slot_writes l = [].
Proof.
  induction l as [|e l IH]; [reflexivity|].
  rewrite count_cons. intros H.
  destruct e as [reg val ret|reg ret| |]; cbn [is_slot_write slot_writes] in *;
    try (apply IH; exact H).
  destruct (is_slot reg); [discriminate|]. apply IH; exact H.
Qed.

Lemma In_count_pos p (l : list event) e :
  In e l -> p e = true -> (0 < count p l)%nat.
Proof.
  intros Hin He. destruct (count p l) eqn:Hc; [|lia].
  rewrite (count_zero_In p l e Hc Hin) in He. discriminate.
Qed.

Section AccessFacts.
Context {B : Type} {bus : mii_bus B}.
Variables (a : access) (page reg : Z) (d : b53_device B).
Variable x : Z * b53_device B * list event.
Hypothesis Hrun : access_run a page reg d x.

Lemma op_run_no_slot_event (op : Z) (d1 : b53_device B) y :
  op_run page reg op d1 y ->
  count is_slot_write (trace y) = 0%nat /\
  count is_slot_read (trace y) = 0%nat /\
  count is_failed_slot_write (trace y) = 0%nat.
Proof.
  intros H. repeat split; apply (op_run_count0 _ _ _ _ _ H); reflexivity.
Qed.

Lemma access_run_success : result x = 0 -> current_page (final x) = page.
Proof.
  destruct Hrun as [pre sreg v r d1 _ _ Hr _|pre d1 y post d2 _ _ _ Hop _ _ Hpg];
    cbn [result final fst snd]; [congruence|].
  intros Hy. rewrite Hpg. exact (op_run_success_page _ _ _ _ _ Hop Hy).
Qed.

Lemma access_run_page_selects :
  (count is_page_select (trace x) <= 1)%nat /\
  (current_page d = page -> count is_page_select (trace x) = 0%nat) /\
  (current_page d <> page -> result x = 0 -> count is_page_select (trace x) = 1%nat).
Proof.
  destruct Hrun as [pre sreg v r d1 Hpre Hs Hr _|pre d1 y post d2 Hpre _ Hd1 Hop Hpost _ Hpg];
    cbn [result trace fst snd]; counts;
    rewrite (Forall_count0 _ _ _ Hpre ok_slot_write_not_page_select).
  - cbn [is_page_select]. rewrite (slot_not_page _ Hs).
    repeat split; intros; first [lia|congruence].
  - rewrite (Forall_count0 _ _ _ Hpost slot_read_not_page_select).
    rewrite (op_run_page_selects _ _ _ _ _ Hop), Hd1.
    destruct (current_page d =? page) eqn:E;
      [apply Z.eqb_eq in E|apply Z.eqb_neq in E]; repeat split; intros;
      first [lia|congruence].
Qed.

Lemma access_run_failed_slot_write e :
  In e (trace x) -> is_failed_slot_write e = true ->
  count is_trigger (trace x) = 0%nat /\
  exists pre sreg v, e = EvWrite sreg v (result x) /\ trace x = pre ++ [e].
Proof.
  destruct Hrun as [pre sreg v r d1 Hpre Hs Hr _|pre d1 y post d2 Hpre _ Hd1 Hop Hpost _ Hpg];
    cbn [result trace fst snd]; intros Hin He.
  - apply in_app_or in Hin. destruct Hin as [Hin|[<-|[]]].
    + pose proof (Forall_count0 _ _ _ Hpre ok_slot_write_not_failed) as Hc.
      rewrite (count_zero_In _ _ _ Hc Hin) in He. discriminate.
    + split.
      * counts. rewrite (Forall_count0 _ _ _ Hpre ok_slot_write_not_trigger).
        cbn [is_trigger]. now rewrite (slot_not_addr _ Hs).
      * exists pre, sreg, v. split; reflexivity.
  - exfalso.
    apply in_app_or in Hin. destruct Hin as [Hin|Hin].
    { pose proof (Forall_count0 _ _ _ Hpre ok_slot_write_not_failed) as Hc.
      rewrite (count_zero_In _ _ _ Hc Hin) in He. discriminate. }
    apply in_app_or in Hin. destruct Hin as [Hin|Hin].
    { destruct (op_run_no_slot_event _ _ _ Hop) as (_ & _ & Hc).
      rewrite (count_zero_In _ _ _ Hc Hin) in He. discriminate. }
    pose proof (Forall_count0 _ _ _ Hpost slot_read_not_failed) as Hc.
    rewrite (count_zero_In _ _ _ Hc Hin) in He. discriminate.
Qed.

Lemma access_run_slot_read e :
  In e (trace x) -> is_slot_read e = true -> result x = 0.
Proof.
  destruct Hrun as [pre sreg v r d1 Hpre Hs Hr _|pre d1 y post d2 Hpre _ Hd1 Hop Hpost Hfail Hpg];
    cbn [result trace fst snd]; intros Hin He.
  - exfalso. apply in_app_or in Hin. destruct Hin as [Hin|[<-|[]]]; [|discriminate].
    pose proof (Forall_count0 _ _ _ Hpre ok_slot_write_not_slot_read) as Hc.
    rewrite (count_zero_In _ _ _ Hc Hin) in He. discriminate.
  - apply in_app_or in Hin. destruct Hin as [Hin|Hin].
    { pose proof (Forall_count0 _ _ _ Hpre ok_slot_write_not_slot_read) as Hc.
      rewrite (count_zero_In _ _ _ Hc Hin) in He. discriminate. }
    apply in_app_or in Hin. destruct Hin as [Hin|Hin].
    { destruct (op_run_no_slot_event _ _ _ Hop) as (_ & Hc & _).
      rewrite (count_zero_In _ _ _ Hc Hin) in He. discriminate. }
    destruct (Z.eq_dec (result y) 0) as [E|E]; [exact E|].
    rewrite (Hfail E) in Hin. destruct Hin.
Qed.

Lemma access_run_first_select :
  current_page d <> page ->
  count is_failed_slot_write (trace x) = 0%nat ->
  exists pre r post,
    trace x = pre ++ EvWrite REG_MII_PAGE (page_word page) r :: post /\
    Forall (fun e => is_ok_slot_write e = true) pre /\
    slot_writes pre = access_stage a.
Proof.
  destruct Hrun as [pre sreg v r d1 Hpre Hs Hr _|pre d1 y post d2 Hpre Hst Hd1 Hop Hpost Hfail Hpg];
    cbn [result trace fst snd]; intros Hne Hc.
  - exfalso. revert Hc. counts. cbn [is_failed_slot_write].
    rewrite Hs. apply Z.eqb_neq in Hr. rewrite Hr. simpl. lia.
  - rewrite <- Hd1 in Hne.
    destruct (op_run_first_select _ _ _ _ _ Hop Hne) as (r & rest & Ht).
    exists pre, r, (rest ++ post). split; [|split; [exact Hpre|exact Hst]].
    rewrite Ht. reflexivity.
Qed.

Lemma access_run_staged pre e post :
  trace x = pre ++ e :: post -> is_trigger e = true ->
  slot_writes pre = access_stage a /\ slot_writes post = [] /\
  count is_failed_slot_write pre = 0%nat.
Proof.
  destruct Hrun as [pre0 sreg v r d1 Hpre Hs Hr _|pre0 d1 y post0 d2 Hpre Hst Hd1 Hop Hpost Hfail Hpg];
    cbn [result trace fst snd]; intros Ht He.
  - exfalso.
    assert (Hin : In e (pre0 ++ [EvWrite sreg v r])) by (rewrite Ht; apply in_elt).
    apply in_app_or in Hin. destruct Hin as [Hin|[<-|[]]].
    + pose proof (Forall_count0 _ _ _ Hpre ok_slot_write_not_trigger) as Hc.
      rewrite (count_zero_In _ _ _ Hc Hin) in He. discriminate.
    + cbn [is_trigger] in He. rewrite (slot_not_addr _ Hs) in He. discriminate.
  - set (rest := trace y ++ post0) in *.
    assert (Hrest : slot_writes rest = [] /\ count is_failed_slot_write rest = 0%nat).
    { destruct (op_run_no_slot_event _ _ _ Hop) as (Hw & _ & Hf).
      unfold rest. rewrite slot_writes_app, (slot_writes_nil _ Hw). counts.
      rewrite Hf, (Forall_count0 _ _ _ Hpost slot_read_not_failed).
      rewrite (slot_writes_nil post0 (Forall_count0 _ _ _ Hpost slot_read_not_slot_write)).
      split; reflexivity. }
    destruct Hrest as [Hrw Hrf].
    assert (He' : slot_writes [e] = []).
    { destruct e as [ereg ? ?| | |]; try reflexivity. cbn [is_trigger] in He.
      apply Z.eqb_eq in He. subst ereg. reflexivity. }
    apply app_eq_app in Ht. destruct Ht as [l [[H1 H2]|[H1 H2]]].
    + (* the trigger lies in the sequencer's part *)
      subst pre0. destruct l as [|e' l].
      * rewrite app_nil_r in *. cbn [app] in H2.
        assert (Hp : slot_writes post = []).
        { pose proof Hrw as H. rewrite <- H2 in H.
          change (e :: post) with ([e] ++ post) in H.
          rewrite slot_writes_app, He' in H. exact H. }
        repeat split; [exact Hst|exact Hp|].
        apply (Forall_count0 _ _ _ Hpre ok_slot_write_not_failed).
      * exfalso. cbn [app] in H2. injection H2 as <- _.
        apply Forall_app in Hpre. destruct Hpre as [_ Hl].
        apply Forall_inv in Hl.
        rewrite (ok_slot_write_not_trigger _ Hl) in He. discriminate.
    + subst pre.
      assert (Hsplit : slot_writes l = [] /\ slot_writes post = [] /\
                       count is_failed_slot_write l = 0%nat).
      { pose proof Hrw as H. pose proof Hrf as H'. rewrite H2 in H, H'.
        change (e :: post) with ([e] ++ post) in H.
        rewrite !slot_writes_app, He' in H. cbn [app] in H.
        apply app_eq_nil in H. destruct H as [Hl Hp].
        revert H'. counts. intros H'. repeat split; [exact Hl|exact Hp|lia]. }
      destruct Hsplit as (Hl & Hp & Hf).
      rewrite slot_writes_app, Hl, app_nil_r. repeat split; [exact Hst|exact Hp|].
      counts. rewrite Hf, (Forall_count0 _ _ _ Hpre ok_slot_write_not_failed). reflexivity.
Qed.

End AccessFacts.

(** ** The simulated device *)

Lemma pending_mod4 v : pending v = negb (v mod 4 =? 0).
Proof.
  unfold pending, u16. change (Z.lor REG_MII_ADDR_WRITE REG_MII_ADDR_READ) with (Z.ones 2).
  rewrite Z.land_ones by lia. change (2 ^ 2) with 4.
  rewrite Z.mod_mod_divide; [reflexivity|]. exists (2 ^ 14). reflexivity.
Qed.

Lemma sim_addr_clear v : pending (Z.ldiff v 3) = false.
Proof.
  rewrite pending_mod4. 
  replace (Z.ldiff v 3 mod 4) with 0; [reflexivity|].
  change 4 with (2 ^ 2). rewrite <- Z.land_ones by lia.
  symmetry. apply Z.bits_inj'. intros n Hn.
  rewrite Z.land_spec, Z.ldiff_spec, Z.bits_0. change 3 with (Z.ones 2).
  rewrite Z.testbit_ones_nonneg by lia.
  destruct (n <? 2); simpl; rewrite ?andb_false_r; reflexivity.
Qed.

Lemma sim_op page reg op s cur :
  let x := b53_mdio_op page reg op (sim_dev s cur) in
  result x = 0 /\ current_page (final x) = page /\
  forall r, is_slot r = true -> sim_regs (priv (final x)) r = sim_regs s r.
Proof.
  cbn zeta.
  assert (Hpoll : forall (s0 : sim_bus) v p, sim_regs s0 REG_MII_ADDR = Z.ldiff v 3 ->
            poll 5 0 {| priv := s0; current_page := p |} =
            (0, {| priv := s0; current_page := p |}, [EvRead REG_MII_ADDR (Z.ldiff v 3)])).
  { intros s0 v p Hs0. cbn [poll]. unfold mbind, bus_read.
    cbn [mdiobus_read sim_mii_bus sim_read priv current_page]. rewrite Hs0.
    pose proof (sim_addr_clear v) as Hc. unfold pending in Hc.
    apply negb_false_iff in Hc. rewrite Hc. reflexivity. }
  assert (Hslot : forall r, is_slot r = true -> (r =? REG_MII_ADDR) = false /\ (r =? REG_MII_PAGE) = false).
  { intros r Hr. unfold is_slot, REG_MII_DATA0, REG_MII_DATA3 in Hr.
    apply andb_true_iff in Hr. destruct Hr as [H1 H2].
    apply Z.leb_le in H1, H2. unfold REG_MII_ADDR, REG_MII_PAGE. split; apply Z.eqb_neq; lia. }
  unfold b53_mdio_op, mbind, get_current_page, bus_write, set_current_page, WARN_ON, mret, sim_dev.
  cbn [priv current_page mdiobus_write sim_mii_bus sim_write sim_regs].
  destruct (cur =? page) eqn:Ecur; cbn [negb Z.eqb priv current_page].
  - apply Z.eqb_eq in Ecur. subst cur.
    match goal with |- context [poll 5 0 {| priv := ?s0; current_page := ?p |}] =>
      rewrite (Hpoll s0 (u16 (u16 (Z.lor (Z.shiftl reg 8) op))) p) by reflexivity end.
    cbn [Z.eqb result final fst snd priv current_page sim_dev sim_regs].
    split; [reflexivity|]. split; [reflexivity|].
    intros r Hr. destruct (Hslot r Hr) as [-> _]. reflexivity.
  - match goal with |- context [poll 5 0 {| priv := ?s0; current_page := ?p |}] =>
      rewrite (Hpoll s0 (u16 (u16 (Z.lor (Z.shiftl reg 8) op))) p) by reflexivity end.
    cbn [Z.eqb result final fst snd priv current_page sim_dev sim_regs].
    split; [reflexivity|]. split; [reflexivity|].
    intros r Hr. destruct (Hslot r Hr) as [-> ->]. reflexivity.
Qed.

Ltac sim_ops :=
  repeat match goal with
  | |- context [b53_mdio_op ?p ?r ?o {| priv := ?s; current_page := ?c |}] =>
      let H := fresh "Hop" in
      let r' := fresh "r" in let s' := fresh "s" in let c' := fresh "c" in
      let t' := fresh "t" in
      pose proof (sim_op p r o s c) as H; unfold sim_dev in H; cbn zeta in H;
      destruct (b53_mdio_op p r o {| priv := s; current_page := c |}) as [[r' [s' c']] t'];
      cbn [result final fst snd priv current_page] in H;
      destruct H as (-> & -> & H)
  end.


Ltac testbit_step :=
  match goal with
  | |- context [Z.testbit ?a ?i] => rewrite (Z.testbit_neg_r a i) by lia
  | |- context [Z.testbit (Z.lor ?a ?b) ?i] => rewrite (Z.lor_spec a b i)
  | |- context [Z.testbit (Z.land ?a ?b) ?i] => rewrite (Z.land_spec a b i)
  | |- context [Z.testbit (?a mod 2 ^ ?k) ?i] => rewrite (Z.testbit_mod_pow2 a k i) by lia
  | |- context [Z.testbit (Z.shiftl ?a ?k) ?i] => rewrite (Z.shiftl_spec a k i) by lia
  | |- context [Z.testbit (Z.shiftr ?a ?k) ?i] => rewrite (Z.shiftr_spec a k i) by lia
  | |- context [Z.testbit (Z.ones ?k) ?i] => rewrite (Z.testbit_ones_nonneg k i) by lia
  | |- context [Z.testbit 0 ?i] => rewrite (Z.bits_0 i)
  end.

Ltac ltb_step :=
  match goal with
  | |- context [?a <? ?b] =>
      first [ replace (a <? b) with true by (symmetry; apply Z.ltb_lt; lia)
            | replace (a <? b) with false by (symmetry; apply Z.ltb_ge; lia) ]
  end.

Ltac bitblast :=
  unfold u8, u16, u32, u64;
  change 65535 with (Z.ones 16); change 255 with (Z.ones 8);
  apply Z.bits_inj'; intros n Hn;
  destruct (Z.lt_ge_cases n 8);
    [|destruct (Z.lt_ge_cases n 16);
      [|destruct (Z.lt_ge_cases n 32);
        [|destruct (Z.lt_ge_cases n 48);
          [|destruct (Z.lt_ge_cases n 64)]]]];
  repeat testbit_step; repeat ltb_step;
  cbn [andb orb]; rewrite ?andb_false_r, ?orb_false_r, ?andb_true_r;
  try reflexivity; try (f_equal; lia).


(** Write then read on the simulated device, for any value: the value
    comes back reduced to the width. *)
Lemma sim_roundtrip_wrap w page reg V (s : sim_bus) cur :
  let x := io_write b53_mdio_ops w page reg V {| priv := s; current_page := cur |} in
  let y := io_read b53_mdio_ops w page reg (final x) in
  result x = 0 /\ result y = (0, Some (V mod 2 ^ bits w)).
Proof.
  cbn zeta.
  destruct w;
    cbn [io_write io_read b53_mdio_ops write8 write16 write32 write48 write64
           read8 read16 read32 read48 read64 bits];
    unfold b53_mdio_write8, b53_mdio_write16, b53_mdio_write32, b53_mdio_write48,
      b53_mdio_write64, b53_mdio_read8, b53_mdio_read16, b53_mdio_read32,
      b53_mdio_read48, b53_mdio_read64, mbind;
    cbn [stage]; unfold mbind, bus_write, mret;
    cbn [mdiobus_write sim_mii_bus sim_write priv current_page Z.eqb negb sim_regs];
    sim_ops; cbn [negb Z.eqb final result fst snd];
    sim_ops; cbn [negb Z.eqb final result fst snd read_slots];
    unfold mbind, bus_read, mret;
    cbn [mdiobus_read sim_mii_bus sim_read priv current_page Z.eqb negb
           final result fst snd sim_regs];
    (split; [reflexivity|]);
    rewrite !Hop0, !Hop by reflexivity;
    cbn [sim_regs Z.eqb Pos.eqb Z.add Pos.add Pos.succ Z.of_nat Pos.of_succ_nat
           REG_MII_DATA0 REG_MII_DATA1 REG_MII_ADDR];
    do 2 f_equal; bitblast.
Qed.

(** * The claims *)

(** ** C1 *)

(** C1, as amended.  On a handle fresh from probe ([current_page] =
    0xff) the first access to any page other than 0xff performs the
    page-select write, and it is the first transaction after the data-slot
    staging: a read-N starts with it, a write-N issues it once its slot
    writes have all succeeded.  Exactly one page-select write is issued. *)
Theorem first_access_selects_page {B : Type} {bus : mii_bus B}
  (b : B) (a : access) (page reg : Z) :
  page <> 0xff ->
  count is_failed_slot_write (trace (b53_access a page reg (b53_phy_probe b))) = 0%nat ->
  count is_page_select (trace (b53_access a page reg (b53_phy_probe b))) = 1%nat /\
  exists pre r post,
    trace (b53_access a page reg (b53_phy_probe b)) =
      pre ++ EvWrite REG_MII_PAGE (page_word page) r :: post /\
    Forall (fun e => is_ok_slot_write e = true) pre /\
    slot_writes pre = access_stage a.
Proof.
  intros Hpage Hok.
  pose proof (b53_access_run a page reg (b53_phy_probe b)) as Hrun.
  assert (Hne : current_page (b53_phy_probe b) <> page)
    by (cbn [b53_phy_probe current_page]; congruence).
  destruct (access_run_first_select _ _ _ _ _ Hrun Hne Hok)
    as (pre & r & post & Ht & Hpre & Hst).
  split.
  - destruct (access_run_page_selects _ _ _ _ _ Hrun) as (Hle & _ & _).
    assert (0 < count is_page_select (trace (b53_access a page reg (b53_phy_probe b))))%nat.
    { apply In_count_pos with (e := EvWrite REG_MII_PAGE (page_word page) r).
      - rewrite Ht. apply in_elt.
      - reflexivity. }
    lia.
  - exists pre, r, post. auto.
Qed.

Lemma first_access_selects_page_witness :
  count is_page_select
    (trace (b53_access (Wr W32 0x12345678) 0 4 (b53_phy_probe sim_init))) = 1%nat /\
  exists pre r post,
    trace (b53_access (Wr W32 0x12345678) 0 4 (b53_phy_probe sim_init)) =
      pre ++ EvWrite REG_MII_PAGE (page_word 0) r :: post /\
    Forall (fun e => is_ok_slot_write e = true) pre /\
    slot_writes pre = access_stage (Wr W32 0x12345678).
Proof.
  apply (first_access_selects_page sim_init (Wr W32 0x12345678) 0 4).
  - discriminate.
  - vm_compute. reflexivity.
Defined.

(** C1 fails for page 0xff: the sentinel is itself a value of the [u8]
    page parameter, so the first access of a fresh handle to page 0xff
    succeeds without any page-select write. *)
Lemma first_access_page_ff_no_select :
  result (b53_access (Rd W8) 0xff 0 (b53_phy_probe sim_init)) = 0 /\
  count is_page_select
    (trace (b53_access (Rd W8) 0xff 0 (b53_phy_probe sim_init))) = 0%nat.
Proof. vm_compute. split; reflexivity. Qed.

(** ** C2 *)

(** A read accessor seen as an access: same status, same events. *)
Lemma access_read_eq {B : Type} {bus : mii_bus B} w page reg (d : b53_device B) :
  result (b53_access (Rd w) page reg d) = fst (result (io_read b53_mdio_ops w page reg d)) /\
  trace (b53_access (Rd w) page reg d) = trace (io_read b53_mdio_ops w page reg d).
Proof.
  unfold b53_access, mbind, mret.
  destruct (io_read b53_mdio_ops w page reg d) as [[rv d1] t].
  cbn [result trace fst snd]. now rewrite app_nil_r.
Qed.

(** C2, as amended.  A transport error on a data-slot read is not
    reported: whenever a read-N performs a data-slot read, whatever [int]
    that read returns, the read-N returns success.  A read-N fails only
    with the status of the operation sequencer, and then it has issued no
    transaction beyond the sequencer's. *)
Theorem slot_read_error_not_reported {B : Type} {bus : mii_bus B}
  (w : width) (page reg : Z) (d : b53_device B) :
  (forall sreg ret,
      In (EvRead sreg ret) (trace (io_read b53_mdio_ops w page reg d)) ->
      is_slot sreg = true ->
      fst (result (io_read b53_mdio_ops w page reg d)) = 0) /\
  (fst (result (io_read b53_mdio_ops w page reg d)) <> 0 ->
   fst (result (io_read b53_mdio_ops w page reg d)) =
     result (b53_mdio_op page reg REG_MII_ADDR_READ d) /\
   trace (io_read b53_mdio_ops w page reg d) =
     trace (b53_mdio_op page reg REG_MII_ADDR_READ d)).
Proof.
  split.
  - intros sreg ret Hin Hs.
    destruct (access_read_eq w page reg d) as [Hr Ht].
    rewrite <- Hr. rewrite <- Ht in Hin.
    exact (access_run_slot_read _ _ _ _ _ (b53_access_run (Rd w) page reg d)
             (EvRead sreg ret) Hin Hs).
  - destruct w;
      cbn [io_read b53_mdio_ops read8 read16 read32 read48 read64];
      unfold b53_mdio_read8, b53_mdio_read16, b53_mdio_read32, b53_mdio_read48,
        b53_mdio_read64, mbind;
      destruct (b53_mdio_op page reg REG_MII_ADDR_READ d) as [[r d1] t];
      (destruct (r =? 0) eqn:Er; cbn [negb];
       [|unfold mret; cbn [result trace fst snd]; rewrite app_nil_r; auto]).
    all: intros Hne; exfalso; apply Hne.
    all: cbn [read_slots]; unfold mbind, bus_read, mret.
    all: repeat match goal with
           | |- context [mdiobus_read ?b ?p ?sreg] =>
               destruct (mdiobus_read b p sreg) as [? ?]; cbn [priv current_page]
           end; reflexivity.
Qed.

Lemma slot_read_error_not_reported_witness :
  fst (result (io_read b53_mdio_ops W16 0 3 (b53_phy_probe [0; 0; 0; -5]))) = 0 /\
  fst (result (io_read b53_mdio_ops W16 0 3 (b53_phy_probe [0; -5]))) =
    result (b53_mdio_op 0 3 REG_MII_ADDR_READ (b53_phy_probe [0; -5])).
Proof.
  split.
  - apply (proj1 (slot_read_error_not_reported W16 0 3 (b53_phy_probe [0; 0; 0; -5]))
             REG_MII_DATA0 (-5)).
    + vm_compute. right. right. right. left. reflexivity.
    + reflexivity.
  - apply (proj2 (slot_read_error_not_reported W16 0 3 (b53_phy_probe [0; -5]))).
    vm_compute. discriminate.
Defined.

(** C2 fails: the page-select write, the address write and the poll
    succeed, then the read of data slot 0 fails with -EIO (-5); the
    16-bit read returns success with the value 0xfffb. *)
Lemma read16_swallows_slot_error :
  result (io_read b53_mdio_ops W16 0 3 (b53_phy_probe [0; 0; 0; -5])) = (0, Some 0xfffb) /\
  trace (io_read b53_mdio_ops W16 0 3 (b53_phy_probe [0; 0; 0; -5])) =
    [EvWrite REG_MII_PAGE 1 0; EvWrite REG_MII_ADDR 0x302 0;
     EvRead REG_MII_ADDR 0; EvRead REG_MII_DATA0 (-5)].
Proof. vm_compute. split; reflexivity. Qed.

(** ** C3 *)

(** C3.  On the simulated fault-free device, whatever its registers hold
    and whatever page the handle has cached, write-N of a value that fits
    in N bits followed by read-N of the same register succeeds and
    returns the value. *)
Theorem write_read_roundtrip (w : width) (page reg V : Z) (s : sim_bus) (cur : Z) :
  0 <= V < 2 ^ bits w ->
  result (io_write b53_mdio_ops w page reg V (sim_dev s cur)) = 0 /\
  result (io_read b53_mdio_ops w page reg
            (final (io_write b53_mdio_ops w page reg V (sim_dev s cur)))) = (0, Some V).
Proof.
  intros HV. pose proof (sim_roundtrip_wrap w page reg V s cur) as H.
  cbn zeta in H. rewrite Z.mod_small in H by exact HV. exact H.
Qed.

Lemma write_read_roundtrip_witness :
  result (io_write b53_mdio_ops W48 2 7 0xa1b2c3d4e5f6 (sim_dev sim_init 0xff)) = 0 /\
  result (io_read b53_mdio_ops W48 2 7
            (final (io_write b53_mdio_ops W48 2 7 0xa1b2c3d4e5f6 (sim_dev sim_init 0xff))))
    = (0, Some 0xa1b2c3d4e5f6).
Proof.
  apply (write_read_roundtrip W48 2 7 0xa1b2c3d4e5f6 sim_init 0xff).
  vm_compute. split; [discriminate|reflexivity].
Defined.

(** ** C4 *)

(** C4, as amended.  The operation sequencer never performs more than 5
    poll reads.  If its bus writes succeed and every poll read reports
    the operation pending, it performs exactly 5 poll reads and returns
    [-EIO].  As soon as a poll read observes both opcode bits clear it
    returns success: that read is the last event of the call.  (The
    [-EIO] of the timeout is an ordinary errno, the same [int] a failed
    bus write may hand back.) *)
Theorem poll_bound {B : Type} {bus : mii_bus B}
  (page reg op : Z) (d : b53_device B) :
  (count is_poll (trace (b53_mdio_op page reg op d)) <= 5)%nat /\
  (count is_failed_write (trace (b53_mdio_op page reg op d)) = 0%nat ->
   count is_clear_poll (trace (b53_mdio_op page reg op d)) = 0%nat ->
   result (b53_mdio_op page reg op d) = - EIO /\
   count is_poll (trace (b53_mdio_op page reg op d)) = 5%nat) /\
  (forall e,
      In e (trace (b53_mdio_op page reg op d)) -> is_clear_poll e = true ->
      result (b53_mdio_op page reg op d) = 0 /\
      exists pre, trace (b53_mdio_op page reg op d) = pre ++ [e]).
Proof.
  pose proof (b53_mdio_op_run page reg op d) as Hrun.
  split; [exact (op_run_polls _ _ _ _ _ Hrun)|]. split.
  - exact (op_run_timeout _ _ _ _ _ Hrun).
  - intros e. exact (op_run_clear_last _ _ _ _ _ Hrun e).
Qed.

Lemma poll_bound_witness :
  (result (b53_mdio_op 1 2 REG_MII_ADDR_READ (b53_phy_probe (ConstBus 0 2))) = - EIO /\
   count is_poll
     (trace (b53_mdio_op 1 2 REG_MII_ADDR_READ (b53_phy_probe (ConstBus 0 2)))) = 5%nat) /\
  (result (b53_mdio_op 1 2 REG_MII_ADDR_READ (b53_phy_probe [0; 0; 2; 2; 0x200])) = 0 /\
   exists pre,
     trace (b53_mdio_op 1 2 REG_MII_ADDR_READ (b53_phy_probe [0; 0; 2; 2; 0x200])) =
       pre ++ [EvRead REG_MII_ADDR 0x200]).
Proof.
  split.
  - apply (proj1 (proj2 (poll_bound 1 2 REG_MII_ADDR_READ (b53_phy_probe (ConstBus 0 2)))));
      vm_compute; reflexivity.
  - apply (proj2 (proj2 (poll_bound 1 2 REG_MII_ADDR_READ
                           (b53_phy_probe [0; 0; 2; 2; 0x200])))).
    + vm_compute. do 6 right. left. reflexivity.
    + reflexivity.
Defined.

(** C4 fails where it sets the timeout apart from transport errors: a
    run that polls five times in vain and a run whose page-select write
    fails with -EIO on the bus, without any poll, return the same
    [int]. *)
Lemma timeout_same_as_transport_error :
  result (b53_mdio_op 1 2 REG_MII_ADDR_READ (b53_phy_probe (ConstBus 0 2))) = - EIO /\
  count is_poll
    (trace (b53_mdio_op 1 2 REG_MII_ADDR_READ (b53_phy_probe (ConstBus 0 2)))) = 5%nat /\
  trace (b53_mdio_op 1 2 REG_MII_ADDR_READ (b53_phy_probe (ConstBus (- EIO) 0))) =
    [EvWrite REG_MII_PAGE 0x101 (- EIO)] /\
  result (b53_mdio_op 1 2 REG_MII_ADDR_READ (b53_phy_probe (ConstBus (- EIO) 0))) =
    result (b53_mdio_op 1 2 REG_MII_ADDR_READ (b53_phy_probe (ConstBus 0 2))).
Proof. vm_compute. repeat split; reflexivity. Qed.

(** ** C5 *)

(** C5.  In every write-N, a data-slot write that fails ends the call:
    it is the last event, its status is what the call returns, and no
    write to the address register (no opcode) is issued at all. *)
Theorem write_aborts_before_trigger {B : Type} {bus : mii_bus B}
  (w : width) (value page reg : Z) (d : b53_device B) (sreg v r : Z) :
  In (EvWrite sreg v r) (trace (io_write b53_mdio_ops w page reg value d)) ->
  is_slot sreg = true -> r <> 0 ->
  result (io_write b53_mdio_ops w page reg value d) = r /\
  count is_trigger (trace (io_write b53_mdio_ops w page reg value d)) = 0%nat /\
  exists pre, trace (io_write b53_mdio_ops w page reg value d) = pre ++ [EvWrite sreg v r].
Proof.
  intros Hin Hs Hr.
  pose proof (b53_access_run (Wr w value) page reg d) as Hrun.
  cbn [b53_access] in Hrun.
  assert (Hf : is_failed_slot_write (EvWrite sreg v r) = true).
  { cbn [is_failed_slot_write]. rewrite Hs. apply Z.eqb_neq in Hr. now rewrite Hr. }
  destruct (access_run_failed_slot_write _ _ _ _ _ Hrun _ Hin Hf)
    as (Htrig & pre & sreg' & v' & He & Ht).
  injection He as _ _ Hres.
  split; [now symmetry|]. split; [exact Htrig|]. now exists pre.
Qed.

Lemma write_aborts_before_trigger_witness :
  result (io_write b53_mdio_ops W32 1 2 0xcafe0001 (b53_phy_probe [0; -5])) = -5 /\
  count is_trigger
    (trace (io_write b53_mdio_ops W32 1 2 0xcafe0001 (b53_phy_probe [0; -5]))) = 0%nat /\
  exists pre,
    trace (io_write b53_mdio_ops W32 1 2 0xcafe0001 (b53_phy_probe [0; -5])) =
      pre ++ [EvWrite REG_MII_DATA1 0xcafe (-5)].
Proof.
  apply (write_aborts_before_trigger W32 0xcafe0001 1 2 (b53_phy_probe [0; -5])
           REG_MII_DATA1 0xcafe (-5)).
  - vm_compute. right. left. reflexivity.
  - reflexivity.
  - discriminate.
Defined.

(** ** C6 *)

Lemma stage_prefix {B : Type} {bus : mii_bus B} n :
  forall i temp (d : b53_device B),
    0 <= i -> i + Z.of_nat n <= 4 ->
    exists rest,
      stage_list n i temp = slot_writes (trace (stage n i temp d)) ++ rest /\
      (count is_failed_slot_write (trace (stage n i temp d)) = 0%nat -> rest = []).
Proof.
  induction n as [|n IH]; intros i temp d Hi Hn.
  - exists []. split; reflexivity.
  - cbn [stage stage_list]. unfold mbind, bus_write, mret. rewrite u16_land.
    destruct (mdiobus_write (priv d) _ _ _) as [r b].
    assert (Hslot : is_slot (REG_MII_DATA0 + i) = true) by (apply is_slot_data; lia).
    destruct (r =? 0) eqn:Er; cbn [negb].
    + destruct (IH (i + 1) (Z.shiftr temp 16)
                  {| priv := b; current_page := current_page d |}
                  ltac:(lia) ltac:(lia)) as (rest & Heq & Hnil).
      destruct (stage n (i + 1) _ _) as [[r' d'] t'].
      cbn [trace snd app slot_writes] in *. rewrite Hslot.
      exists rest. split; [now rewrite Heq|].
      rewrite count_cons. cbn [is_failed_slot_write]. rewrite Hslot, Er.
      cbn [andb negb Nat.add]. exact Hnil.
    + cbn [trace snd app slot_writes]. rewrite Hslot.
      exists (stage_list n (i + 1) (Z.shiftr temp 16)). split; [reflexivity|].
      counts. cbn [is_failed_slot_write]. rewrite Hslot, Er. cbn. discriminate.
Qed.

Lemma write_slot_writes_prefix {B : Type} {bus : mii_bus B}
  w V page reg (d : b53_device B) :
  exists rest,
    staged w V = slot_writes (trace (io_write b53_mdio_ops w page reg V d)) ++ rest /\
    (count is_failed_slot_write (trace (io_write b53_mdio_ops w page reg V d)) = 0%nat ->
     rest = []).
Proof.
  assert (Hst : forall (st : M B Z) rest,
            staged w V = slot_writes (trace (st d)) ++ rest ->
            (count is_failed_slot_write (trace (st d)) = 0%nat -> rest = []) ->
            staged w V =
              slot_writes (trace (mbind st (fun ret => if negb (ret =? 0) then mret ret
                  else b53_mdio_op page reg REG_MII_ADDR_WRITE) d)) ++ rest /\
            (count is_failed_slot_write
               (trace (mbind st (fun ret => if negb (ret =? 0) then mret ret
                  else b53_mdio_op page reg REG_MII_ADDR_WRITE) d)) = 0%nat ->
             rest = [])).
  { intros st rest Heq Hnil. unfold mbind. destruct (st d) as [[r d1] pre].
    cbn [trace snd] in *.
    destruct (negb (r =? 0)).
    - unfold mret. rewrite app_nil_r. auto.
    - pose proof (b53_mdio_op_run page reg REG_MII_ADDR_WRITE d1) as Hop.
      destruct (op_run_no_slot_event page reg _ _ _ Hop) as (Hw & _ & Hf).
      destruct (b53_mdio_op page reg REG_MII_ADDR_WRITE d1) as [[r2 d2] t2].
      cbn [trace snd] in *.
      rewrite slot_writes_app, (slot_writes_nil _ Hw), app_nil_r, count_app, Hf.
      split; [exact Heq|]. intros H. apply Hnil. lia. }
  assert (Hbw : slots w = 1%nat ->
            staged w V = slot_writes (trace (bus_write REG_MII_DATA0 V d)) ++ []).
  { intros Hw. unfold bus_write. destruct (mdiobus_write _ _ _ _) as [r b].
    cbn [trace snd slot_writes]. change (is_slot REG_MII_DATA0) with true. cbn iota.
    unfold staged. rewrite Hw. cbn [seq map Z.of_nat app].
    now rewrite Z.shiftr_0_r, Z.add_0_r, u16_as_land. }
  assert (Hstage : forall n, slots w = n -> (2 <= n)%nat ->
            exists rest,
              staged w V = slot_writes (trace (stage n 0 V d)) ++ rest /\
              (count is_failed_slot_write (trace (stage n 0 V d)) = 0%nat -> rest = [])).
  { intros n Hn Hle. rewrite <- stage_list_staged, Hn.
    apply stage_prefix; [lia|]. destruct w; cbn in Hn; subst; cbn; lia. }
  destruct w.
  - exists []. apply (Hst (bus_write REG_MII_DATA0 V)); [now apply Hbw|auto].
  - exists []. apply (Hst (bus_write REG_MII_DATA0 V)); [now apply Hbw|auto].
  - destruct (Hstage 2%nat eq_refl ltac:(lia)) as (rest & H1 & H2).
    exists rest. now apply (Hst (stage 2 0 V)).
  - destruct (Hstage 3%nat eq_refl ltac:(lia)) as (rest & H1 & H2).
    exists rest. now apply (Hst (stage 3 0 V)).
  - destruct (Hstage 4%nat eq_refl ltac:(lia)) as (rest & H1 & H2).
    exists rest. now apply (Hst (stage 4 0 V)).
Qed.

Lemma op_run_trigger_issued {B : Type} {bus : mii_bus B}
  page reg op (d : b53_device B) x :
  op_run page reg op d x ->
  count is_failed_write (trace x) = 0%nat -> count is_trigger (trace x) = 1%nat.
Proof.
  intros Hrun.
  destruct Hrun as [r d1 sel Hs Hr|d1 sel r b Hs _ Hr|d1 sel b y Hs _ Hp];
    cbn [result trace fst snd]; counts;
    rewrite (page_select_count0 is_trigger _ _ _ _ _ (fun _ _ => eq_refl) Hs).
  - inversion Hs; subst; [congruence| |congruence].
    counts. cbn [is_failed_write]. apply Z.eqb_neq in Hr. rewrite Hr. discriminate.
  - intros _. reflexivity.
  - intros _. cbn [is_trigger]. rewrite Z.eqb_refl.
    rewrite (poll_run_count0 is_trigger _ _ _ _ (fun _ => eq_refl) eq_refl Hp).
    destruct (result y =? 5); counts; reflexivity.
Qed.

Lemma slot_read_is_not_trigger e :
  is_slot_read e = true -> is_trigger e = false.
Proof. destruct e; try discriminate. reflexivity. Qed.

(** C6.  A width of N bits has ceil(N/16) data slots.  In every
    write-N the data-slot writes issued are, in order, an initial part
    of [staged]: slots 0, 1, .. in ascending order, slot [i] carrying
    [(value >> (16*i)) & 0xffff].  When no data-slot write fails they
    are all of [staged], exactly ceil(N/16) writes, and they come first:
    nothing after them writes a data slot; when no bus write fails at
    all the trigger (the write to the address register) follows, once.
    Whenever a trigger is in the trace, the data-slot writes before it
    are exactly those of [staged], none of them failed, and no data-slot
    write follows it.  For the 64-bit value 0x0000000000010002 the
    staged writes are 0x0002, 0x0001, 0x0000, 0x0000 to slots 0 to 3. *)
Theorem write_stages_slots_in_order {B : Type} {bus : mii_bus B}
  (w : width) (value page reg : Z) (d : b53_device B) :
  Z.of_nat (slots w) = (bits w + 15) / 16 /\
  length (staged w value) = slots w /\
  (exists rest,
      staged w value =
        slot_writes (trace (io_write b53_mdio_ops w page reg value d)) ++ rest) /\
  (count is_failed_slot_write (trace (io_write b53_mdio_ops w page reg value d)) = 0%nat ->
   slot_writes (trace (io_write b53_mdio_ops w page reg value d)) = staged w value /\
   exists pre rest,
     trace (io_write b53_mdio_ops w page reg value d) = pre ++ rest /\
     Forall (fun e => is_ok_slot_write e = true) pre /\
     slot_writes pre = staged w value /\
     count is_slot_write rest = 0%nat) /\
  (count is_failed_write (trace (io_write b53_mdio_ops w page reg value d)) = 0%nat ->
   count is_trigger (trace (io_write b53_mdio_ops w page reg value d)) = 1%nat) /\
  (forall pre e post,
      trace (io_write b53_mdio_ops w page reg value d) = pre ++ e :: post ->
      is_trigger e = true ->
      slot_writes pre = staged w value /\ slot_writes post = [] /\
      count is_failed_slot_write pre = 0%nat) /\
  staged W64 0x0000000000010002 =
    [(REG_MII_DATA0, 0x0002); (REG_MII_DATA1, 0x0001);
     (REG_MII_DATA2, 0x0000); (REG_MII_DATA3, 0x0000)].
Proof.
  split; [now destruct w|]. split; [now destruct w|].
  pose proof (b53_access_run (Wr w value) page reg d) as Hrun.
  cbn [b53_access] in Hrun.
  split.
  { destruct (write_slot_writes_prefix w value page reg d) as (rest & Heq & _).
    now exists rest. }
  split.
  { intros Hnf.
    destruct (write_slot_writes_prefix w value page reg d) as (rest & Heq & Hnil).
    rewrite (Hnil Hnf), app_nil_r in Heq. split; [now symmetry|].
    destruct Hrun as [pre sreg v r d1 Hpre Hs Hr _|pre d1 y post d2 Hpre Hst _ Hop Hpost _ _];
      cbn [trace snd] in *.
    - exfalso. revert Hnf. counts. cbn [is_failed_slot_write].
      rewrite Hs. apply Z.eqb_neq in Hr. rewrite Hr. cbn. lia.
    - exists pre, (trace y ++ post). repeat split; auto.
      counts. destruct (op_run_no_slot_event page reg _ _ _ Hop) as (-> & _ & _).
      now rewrite (Forall_count0 _ _ _ Hpost slot_read_not_slot_write). }
  split.
  { destruct Hrun as [pre sreg v r d1 Hpre Hs Hr _|pre d1 y post d2 Hpre Hst _ Hop Hpost _ _];
      cbn [trace snd]; counts.
    - cbn [is_failed_write]. apply Z.eqb_neq in Hr. rewrite Hr. cbn. lia.
    - intros Hnf.
      rewrite (Forall_count0 _ _ _ Hpre ok_slot_write_not_trigger).
      rewrite (Forall_count0 _ _ _ Hpost slot_read_is_not_trigger).
      rewrite (op_run_trigger_issued _ _ _ _ _ Hop); [reflexivity|lia]. }
  split; [|reflexivity].
  intros pre e post Ht He.
  exact (access_run_staged _ _ _ _ _ Hrun pre e post Ht He).
Qed.

Lemma write_stages_slots_in_order_witness :
  (slot_writes (trace (io_write b53_mdio_ops W64 3 4 0x0000000000010002
                         (b53_phy_probe sim_init))) =
     [(REG_MII_DATA0, 0x0002); (REG_MII_DATA1, 0x0001);
      (REG_MII_DATA2, 0x0000); (REG_MII_DATA3, 0x0000)] /\
   count is_trigger
     (trace (io_write b53_mdio_ops W64 3 4 0x0000000000010002
               (b53_phy_probe sim_init))) = 1%nat) /\
  (slot_writes [EvWrite REG_MII_DATA0 2 0; EvWrite REG_MII_DATA1 1 0;
                EvWrite REG_MII_DATA2 0 0; EvWrite REG_MII_DATA3 0 0;
                EvWrite REG_MII_PAGE 0x301 0] =
     staged W64 0x0000000000010002 /\
   slot_writes [EvRead REG_MII_ADDR 0x400] = [] /\
   count is_failed_slot_write
     [EvWrite REG_MII_DATA0 2 0; EvWrite REG_MII_DATA1 1 0;
      EvWrite REG_MII_DATA2 0 0; EvWrite REG_MII_DATA3 0 0;
      EvWrite REG_MII_PAGE 0x301 0] = 0%nat).
Proof.
  pose proof (write_stages_slots_in_order W64 0x0000000000010002 3 4
                (b53_phy_probe sim_init)) as (_ & _ & _ & Hall & Htrig & Hsplit & _).
  split; [split|].
  - apply (proj1 (Hall ltac:(vm_compute; reflexivity))).
  - apply Htrig. vm_compute. reflexivity.
  - apply (Hsplit _ (EvWrite REG_MII_ADDR 0x401 0) _).
    + vm_compute. reflexivity.
    + reflexivity.
Defined.

(** ** C7 *)

(** C7, as amended.  The page-select step of the sequencer issues one
    write to the page register when the cached page differs from the
    requested one and none when they are equal; an access issues at most
    one.  For two consecutive accesses through a handle that is not yet
    on the first page: when the first succeeds and the second asks for
    the same page, one page-select write is issued in total; when both
    succeed and ask for different pages, two are. *)
Theorem page_select_elision {B : Type} {bus : mii_bus B}
  (a1 a2 : access) (p q reg1 reg2 op : Z) (d : b53_device B) :
  count is_page_select (trace (b53_mdio_op p reg1 op d)) =
    (if current_page d =? p then 0%nat else 1%nat) /\
  (count is_page_select (trace (b53_access a1 p reg1 d)) <= 1)%nat /\
  (current_page d = p ->
   count is_page_select (trace (b53_access a1 p reg1 d)) = 0%nat) /\
  (current_page d <> p ->
   result (b53_access a1 p reg1 d) = 0 ->
   count is_page_select
     (trace (b53_access a1 p reg1 d) ++
      trace (b53_access a2 p reg2 (final (b53_access a1 p reg1 d)))) = 1%nat) /\
  (current_page d <> p -> q <> p ->
   result (b53_access a1 p reg1 d) = 0 ->
   result (b53_access a2 q reg2 (final (b53_access a1 p reg1 d))) = 0 ->
   count is_page_select
     (trace (b53_access a1 p reg1 d) ++
      trace (b53_access a2 q reg2 (final (b53_access a1 p reg1 d)))) = 2%nat).
Proof.
  pose proof (b53_access_run a1 p reg1 d) as H1.
  destruct (access_run_page_selects _ _ _ _ _ H1) as (Hle & Heq & Hne).
  split; [exact (op_run_page_selects _ _ _ _ _ (b53_mdio_op_run p reg1 op d))|].
  split; [exact Hle|]. split; [exact Heq|]. split.
  - intros Hd Hr1.
    pose proof (access_run_success _ _ _ _ _ H1 Hr1) as Hpg.
    pose proof (b53_access_run a2 p reg2 (final (b53_access a1 p reg1 d))) as H2.
    destruct (access_run_page_selects _ _ _ _ _ H2) as (_ & Heq2 & _).
    rewrite count_app, (Hne Hd Hr1), (Heq2 Hpg). reflexivity.
  - intros Hd Hq Hr1 Hr2.
    pose proof (access_run_success _ _ _ _ _ H1 Hr1) as Hpg.
    pose proof (b53_access_run a2 q reg2 (final (b53_access a1 p reg1 d))) as H2.
    destruct (access_run_page_selects _ _ _ _ _ H2) as (_ & _ & Hne2).
    rewrite count_app, (Hne Hd Hr1), Hne2; [reflexivity|congruence|exact Hr2].
Qed.

Lemma page_select_elision_witness :
  count is_page_select (trace (b53_access (Rd W16) 1 2 (sim_dev sim_init 1))) = 0%nat /\
  count is_page_select
    (trace (b53_access (Rd W16) 1 2 (b53_phy_probe sim_init)) ++
     trace (b53_access (Wr W32 9) 1 3
              (final (b53_access (Rd W16) 1 2 (b53_phy_probe sim_init))))) = 1%nat /\
  count is_page_select
    (trace (b53_access (Rd W16) 1 2 (b53_phy_probe sim_init)) ++
     trace (b53_access (Wr W32 9) 4 3
              (final (b53_access (Rd W16) 1 2 (b53_phy_probe sim_init))))) = 2%nat.
Proof.
  split; [|split].
  - apply (proj1 (proj2 (proj2
             (page_select_elision (Rd W16) (Rd W16) 1 1 2 2 0 (sim_dev sim_init 1))))).
    reflexivity.
  - apply (proj1 (proj2 (proj2 (proj2
             (page_select_elision (Rd W16) (Wr W32 9) 1 1 2 3 0 (b53_phy_probe sim_init)))))).
    + vm_compute. discriminate.
    + vm_compute. reflexivity.
  - apply (proj2 (proj2 (proj2 (proj2
             (page_select_elision (Rd W16) (Wr W32 9) 1 4 2 3 0 (b53_phy_probe sim_init)))))).
    + vm_compute. discriminate.
    + discriminate.
    + vm_compute. reflexivity.
    + vm_compute. reflexivity.
Defined.

(** C7 fails without those conditions.  Two successful accesses of a
    fresh handle to page 0xff issue no page-select write; when the first
    page-select write fails, two accesses to the same page issue two;
    and two successful accesses to different pages issue only one when
    the handle is already on the first page. *)
Lemma consecutive_accesses_select_counts :
  (result (b53_access (Rd W16) 0xff 2 (b53_phy_probe sim_init)) = 0 /\
   result (b53_access (Rd W16) 0xff 3
             (final (b53_access (Rd W16) 0xff 2 (b53_phy_probe sim_init)))) = 0 /\
   count is_page_select
     (trace (b53_access (Rd W16) 0xff 2 (b53_phy_probe sim_init)) ++
      trace (b53_access (Rd W16) 0xff 3
               (final (b53_access (Rd W16) 0xff 2 (b53_phy_probe sim_init))))) = 0%nat) /\
  count is_page_select
    (trace (b53_access (Rd W16) 1 2 (b53_phy_probe [-5])) ++
     trace (b53_access (Rd W16) 1 3
              (final (b53_access (Rd W16) 1 2 (b53_phy_probe [-5]))))) = 2%nat /\
  (result (b53_access (Rd W16) 1 2 (sim_dev sim_init 1)) = 0 /\
   result (b53_access (Rd W16) 4 3
             (final (b53_access (Rd W16) 1 2 (sim_dev sim_init 1)))) = 0 /\
   count is_page_select
     (trace (b53_access (Rd W16) 1 2 (sim_dev sim_init 1)) ++
      trace (b53_access (Rd W16) 4 3
               (final (b53_access (Rd W16) 1 2 (sim_dev sim_init 1))))) = 1%nat).
Proof. vm_compute. repeat split; reflexivity. Qed.

(** ** C8 *)

(** C8.  In the sequencer, when the page differs from the cached one:
    if the page-select write fails, its status is returned and
    [current_page] is unchanged; if it succeeds and the address write
    that follows fails, that status is returned and [current_page] is
    the newly selected page.  In every run, [current_page] changes only
    to the requested page and only after a page-select write that
    returned 0. *)
Theorem page_cache_update {B : Type} {bus : mii_bus B}
  (page reg op : Z) (d : b53_device B) :
  (forall r b,
      current_page d <> page ->
      mdiobus_write (priv d) B53_PSEUDO_PHY REG_MII_PAGE (page_word page) = (r, b) ->
      r <> 0 ->
      result (b53_mdio_op page reg op d) = r /\
      current_page (final (b53_mdio_op page reg op d)) = current_page d) /\
  (forall b r b',
      current_page d <> page ->
      mdiobus_write (priv d) B53_PSEUDO_PHY REG_MII_PAGE (page_word page) = (0, b) ->
      mdiobus_write b B53_PSEUDO_PHY REG_MII_ADDR (addr_word reg op) = (r, b') ->
      r <> 0 ->
      result (b53_mdio_op page reg op d) = r /\
      current_page (final (b53_mdio_op page reg op d)) = page) /\
  (current_page (final (b53_mdio_op page reg op d)) <> current_page d ->
   current_page (final (b53_mdio_op page reg op d)) = page /\
   exists rest,
     trace (b53_mdio_op page reg op d) = EvWrite REG_MII_PAGE (page_word page) 0 :: rest).
Proof.
  split; [|split].
  - intros r b Hne Hw Hr.
    unfold b53_mdio_op, mbind, get_current_page, bus_write, set_current_page, mret.
    rewrite !u16_idem. fold (page_word page).
    apply Z.eqb_neq in Hne. rewrite Hne. cbn [negb]. rewrite Hw.
    apply Z.eqb_neq in Hr. rewrite Hr. cbn beta iota. rewrite Hr.
    cbn [negb result final fst snd current_page].
    split; reflexivity.
  - intros b r b' Hne Hw Ha Hr.
    unfold b53_mdio_op, mbind, get_current_page, bus_write, set_current_page, mret.
    rewrite !u16_idem. fold (page_word page) (addr_word reg op).
    apply Z.eqb_neq in Hne. rewrite Hne. cbn [negb]. rewrite Hw.
    cbn [Z.eqb negb priv current_page]. rewrite Ha.
    apply Z.eqb_neq in Hr. cbn beta iota. rewrite Hr.
    cbn [negb result final fst snd current_page].
    split; reflexivity.
  - intros Hch.
    destruct (op_run_page_update _ _ _ _ _ (b53_mdio_op_run page reg op d)) as [H|H];
      [contradiction|exact H].
Qed.

Lemma page_cache_update_witness :
  (result (b53_mdio_op 3 4 REG_MII_ADDR_WRITE (b53_phy_probe [-5])) = -5 /\
   current_page (final (b53_mdio_op 3 4 REG_MII_ADDR_WRITE (b53_phy_probe [-5]))) = 0xff) /\
  (result (b53_mdio_op 3 4 REG_MII_ADDR_WRITE (b53_phy_probe [0; -5])) = -5 /\
   current_page (final (b53_mdio_op 3 4 REG_MII_ADDR_WRITE (b53_phy_probe [0; -5]))) = 3) /\
  (current_page (final (b53_mdio_op 3 4 REG_MII_ADDR_WRITE (b53_phy_probe [0; -5]))) = 3 /\
   exists rest,
     trace (b53_mdio_op 3 4 REG_MII_ADDR_WRITE (b53_phy_probe [0; -5])) =
       EvWrite REG_MII_PAGE (page_word 3) 0 :: rest).
Proof.
  split; [|split].
  - apply (proj1 (page_cache_update 3 4 REG_MII_ADDR_WRITE (b53_phy_probe [-5])) (-5) []).
    + vm_compute. discriminate.
    + reflexivity.
    + discriminate.
  - apply (proj1 (proj2 (page_cache_update 3 4 REG_MII_ADDR_WRITE (b53_phy_probe [0; -5])))
             [-5] (-5) []).
    + vm_compute. discriminate.
    + reflexivity.
    + reflexivity.
    + discriminate.
  - apply (proj2 (proj2 (page_cache_update 3 4 REG_MII_ADDR_WRITE (b53_phy_probe [0; -5])))).
    vm_compute. discriminate.
Defined.

(** ** C9 *)

Lemma count_zero_all p (l : list event) :
  (forall e, In e l -> p e = false) -> count p l = 0%nat.
Proof.
  induction l as [|a l IH]; intros H; [reflexivity|].
  rewrite count_cons, (H a (or_introl eq_refl)), IH; [reflexivity|].
  intros e He. apply H. now right.
Qed.

(** C9, as amended.  The status of a poll read is never returned: when
    the bus writes of the sequencer succeed the call returns 0 or
    [-EIO].  A poll read that fails with an errno that is not a multiple
    of 4 counts as a pending status (one of the two opcode bits is set
    in its low 16 bits), so a call whose poll reads all fail that way
    performs 5 poll reads and returns [-EIO]. *)
Theorem poll_read_error_not_surfaced {B : Type} {bus : mii_bus B}
  (page reg op : Z) (d : b53_device B) :
  count is_failed_write (trace (b53_mdio_op page reg op d)) = 0%nat ->
  (result (b53_mdio_op page reg op d) = 0 \/
   result (b53_mdio_op page reg op d) = - EIO) /\
  ((forall ret,
       In (EvRead REG_MII_ADDR ret) (trace (b53_mdio_op page reg op d)) ->
       ret < 0 /\ ret mod 4 <> 0) ->
   result (b53_mdio_op page reg op d) = - EIO /\
   count is_poll (trace (b53_mdio_op page reg op d)) = 5%nat).
Proof.
  intros Hw. pose proof (b53_mdio_op_run page reg op d) as Hrun.
  split; [exact (op_run_result _ _ _ _ _ Hrun Hw)|].
  intros Herr. apply (op_run_timeout _ _ _ _ _ Hrun Hw).
  apply count_zero_all. intros e Hin.
  destruct e as [ereg val ret|ereg ret| |]; try reflexivity.
  cbn [is_clear_poll]. destruct (ereg =? REG_MII_ADDR) eqn:E; [|reflexivity].
  apply Z.eqb_eq in E. subst ereg.
  destruct (Herr ret Hin) as [_ Hm].
  rewrite pending_mod4. apply Z.eqb_neq in Hm. now rewrite Hm.
Qed.

Lemma poll_read_error_not_surfaced_witness :
  result (b53_mdio_op 1 2 REG_MII_ADDR_READ (b53_phy_probe (ConstBus 0 (-110)))) = - EIO /\
  count is_poll
    (trace (b53_mdio_op 1 2 REG_MII_ADDR_READ (b53_phy_probe (ConstBus 0 (-110))))) = 5%nat.
Proof.
  refine (proj2 (poll_read_error_not_surfaced 1 2 REG_MII_ADDR_READ
                   (b53_phy_probe (ConstBus 0 (-110))) _) _).
  - vm_compute. reflexivity.
  - intros ret Hin. vm_compute in Hin.
    repeat (destruct Hin as [Hin|Hin];
            [first [discriminate Hin
                   |injection Hin as <-; split; [reflexivity|discriminate]]|]).
    destruct Hin.
Defined.

(** C9 fails for an errno that is a multiple of 4: with every poll read
    failing with -EBUSY (-16), whose low 16 bits 0xfff0 have both opcode
    bits clear, the sequencer polls once and returns success. *)
Lemma poll_error_taken_as_completion :
  result (b53_mdio_op 1 2 REG_MII_ADDR_READ (b53_phy_probe (ConstBus 0 (-16)))) = 0 /\
  trace (b53_mdio_op 1 2 REG_MII_ADDR_READ (b53_phy_probe (ConstBus 0 (-16)))) =
    [EvWrite REG_MII_PAGE 0x101 0; EvWrite REG_MII_ADDR 0x202 0;
     EvRead REG_MII_ADDR (-16)].
Proof. vm_compute. split; reflexivity. Qed.

(** ** C10 *)

(** C10.  When any of the ten accesses returns success, the handle's
    [current_page] is the page of that access, and whatever access to
    the same page comes next through the handle issues no page-select
    write. *)
Theorem success_leaves_page_cached {B : Type} {bus : mii_bus B}
  (a : access) (page reg : Z) (d : b53_device B) :
  result (b53_access a page reg d) = 0 ->
  current_page (final (b53_access a page reg d)) = page /\
  forall a' reg',
    count is_page_select
      (trace (b53_access a' page reg' (final (b53_access a page reg d)))) = 0%nat.
Proof.
  intros Hr.
  pose proof (access_run_success _ _ _ _ _ (b53_access_run a page reg d) Hr) as Hpg.
  split; [exact Hpg|]. intros a' reg'.
  pose proof (b53_access_run a' page reg' (final (b53_access a page reg d))) as H2.
  destruct (access_run_page_selects _ _ _ _ _ H2) as (_ & Heq & _).
  exact (Heq Hpg).
Qed.

Lemma success_leaves_page_cached_witness :
  current_page (final (b53_access (Wr W64 0x10002) 5 6 (b53_phy_probe sim_init))) = 5 /\
  forall a' reg',
    count is_page_select
      (trace (b53_access a' 5 reg'
                (final (b53_access (Wr W64 0x10002) 5 6 (b53_phy_probe sim_init))))) = 0%nat.
Proof.
  apply (success_leaves_page_cached (Wr W64 0x10002) 5 6 (b53_phy_probe sim_init)).
  vm_compute. reflexivity.
Defined.

(** * Further properties of the access protocol *)

(** ** The completion loop, continued *)

Section PollMore.
Context {B : Type} {bus : mii_bus B}.

Lemma poll_run_pending n i (d : b53_device B) x :
  poll_run n i d x ->
  Z.of_nat (count is_pending_read (trace x)) = result x - i /\
  count is_sleep (trace x) = count is_pending_read (trace x) /\
  count is_warn (trace x) = 0%nat /\
  count is_failed_write (trace x) = 0%nat.
Proof.
  induction 1; cbn [trace result fst snd] in *; counts;
    cbn [is_pending_read is_sleep is_warn is_failed_write];
    rewrite ?Z.eqb_refl, ?H0; cbn [andb]; try lia.
Qed.

Lemma poll_run_success n i (d : b53_device B) x :
  poll_run n i d x -> result x < i + Z.of_nat n ->
  exists pre v, trace x = pre ++ [EvRead REG_MII_ADDR v] /\ pending v = false.
Proof.
  induction 1; cbn [trace result fst snd] in *; intros Hlt.
  - lia.
  - exists [], r. split; [reflexivity|assumption].
  - destruct IHpoll_run as (pre & v & Ht & Hv); [lia|].
    exists (EvRead REG_MII_ADDR r :: EvSleep :: pre), v.
    split; [now rewrite Ht|assumption].
Qed.

End PollMore.

(** ** The operation sequencer, continued *)

Lemma page_select_shape {B : Type} {bus : mii_bus B}
  page (d : b53_device B) r d1 sel :
  page_select page d r d1 sel ->
  sel = [] \/ sel = [EvWrite REG_MII_PAGE (page_word page) r].
Proof. destruct 1; auto. Qed.

Section OpMore.
Context {B : Type} {bus : mii_bus B}.
Variables page reg op : Z.
Variable d : b53_device B.
Variable x : Z * b53_device B * list event.
Hypothesis Hrun : op_run page reg op d x.

Lemma op_run_success_ends_clear :
  result x = 0 ->
  exists pre v, trace x = pre ++ [EvRead REG_MII_ADDR v] /\ pending v = false.
Proof.
  destruct Hrun as [r d1 sel Hs Hr|d1 sel r b Hs _ Hr|d1 sel b y Hs _ Hp];
    cbn [result trace fst snd]; try congruence.
  destruct (result y =? 5) eqn:E; [discriminate|]. intros _.
  apply Z.eqb_neq in E. pose proof (poll_run_range _ _ _ _ Hp) as Hrg.
  destruct (poll_run_success _ _ _ _ Hp) as (pre & v & Ht & Hv); [simpl; lia|].
  exists (sel ++ EvWrite REG_MII_ADDR (addr_word reg op) 0 :: pre), v.
  split; [|exact Hv]. rewrite Ht, app_nil_r, <- app_assoc. reflexivity.
Qed.

Lemma op_run_sleeps_warns :
  count is_sleep (trace x) = count is_pending_read (trace x) /\
  (count is_pending_read (trace x) <= 5)%nat /\
  count is_warn (trace x) =
    (if (count is_pending_read (trace x) =? 5)%nat then 1%nat else 0%nat) /\
  (count is_warn (trace x) = 1%nat ->
   result x = - EIO /\ count is_failed_write (trace x) = 0%nat).
Proof.
  assert (Hsel : forall r d1 sel, page_select page d r d1 sel ->
            count is_sleep sel = 0%nat /\ count is_pending_read sel = 0%nat /\
            count is_warn sel = 0%nat /\
            (r = 0 -> count is_failed_write sel = 0%nat)).
  { intros r d1 sel H. destruct H; counts; cbn; repeat split; auto; congruence. }
  destruct Hrun as [r d1 sel Hs Hr|d1 sel r b Hs _ Hr|d1 sel b y Hs _ Hp];
    cbn [result trace fst snd]; counts;
    destruct (Hsel _ _ _ Hs) as (-> & -> & -> & Hf);
    cbn [is_sleep is_pending_read is_warn is_failed_write Nat.add Nat.eqb].
  - repeat split; first [lia|discriminate].
  - repeat split; first [lia|discriminate].
  - destruct (poll_run_pending _ _ _ _ Hp) as (Hpend & Hsl & Hw & Hfw).
    pose proof (poll_run_range _ _ _ _ Hp) as Hrg. cbn [Z.of_nat] in Hrg.
    rewrite Hsl, Hw, Hfw, (Hf eq_refl).
    destruct (result y =? 5) eqn:E;
      [apply Z.eqb_eq in E|apply Z.eqb_neq in E]; counts;
      cbn [is_sleep is_pending_read is_warn is_failed_write negb Z.eqb].
    + assert (Hc : count is_pending_read (trace y) = 5%nat) by lia.
      rewrite Hc. cbn. repeat split; lia.
    + destruct (Nat.eqb_spec (count is_pending_read (trace y) + 0) 5) as [E5|E5];
        [exfalso; lia|].
      rewrite !Nat.add_0_r in *.
      destruct (Nat.eqb_spec (count is_pending_read (trace y)) 5) as [E6|_];
        [exfalso; lia|].
      repeat split; try lia.
Qed.

Lemma op_run_failed_write e :
  In e (trace x) -> is_failed_write e = true ->
  exists pre wreg v, e = EvWrite wreg v (result x) /\ trace x = pre ++ [e].
Proof.
  intros Hin He.
  destruct Hrun as [r d1 sel Hs Hr|d1 sel r b Hs _ Hr|d1 sel b y Hs _ Hp];
    cbn [result trace fst snd] in *.
  - inversion Hs; subst; try congruence.
    destruct Hin as [<-|[]]. exists [], REG_MII_PAGE, (page_word page). now split.
  - apply in_app_or in Hin. destruct Hin as [Hin|[<-|[]]].
    + exfalso. destruct (page_select_shape _ _ _ _ _ Hs) as [->| ->];
        [destruct Hin|]. destruct Hin as [<-|[]]. discriminate.
    + exists sel, REG_MII_ADDR, (addr_word reg op). now split.
  - exfalso.
    assert (Hc : count is_failed_write
                   (sel ++ EvWrite REG_MII_ADDR (addr_word reg op) 0
                        :: trace y ++ (if result y =? 5 then [EvWarn] else [])) = 0%nat).
    { counts. destruct (poll_run_pending _ _ _ _ Hp) as (_ & _ & _ & ->).
      destruct (page_select_shape _ _ _ _ _ Hs) as [->| ->]; counts;
        destruct (result y =? 5); counts; reflexivity. }
    rewrite (count_zero_In _ _ _ Hc Hin) in He. discriminate.
Qed.

Lemma op_run_words e :
  In e (trace x) ->
  (is_page_select e = true -> exists r, e = EvWrite REG_MII_PAGE (page_word page) r) /\
  (is_trigger e = true -> exists r, e = EvWrite REG_MII_ADDR (addr_word reg op) r).
Proof.
  assert (Hsel : forall r d1 sel, page_select page d r d1 sel -> In e sel ->
            e = EvWrite REG_MII_PAGE (page_word page) r).
  { intros r d1 sel H Hin. destruct (page_select_shape _ _ _ _ _ H) as [->| ->];
      [destruct Hin|]. destruct Hin as [<-|[]]. reflexivity. }
  assert (Hpoll : forall n i d0 y, poll_run n i d0 y -> In e (trace y) ->
            is_page_select e = false /\ is_trigger e = false).
  { intros n i d0 y Hp Hin.
    split; eapply count_zero_In; try exact Hin;
      apply (poll_run_count0 _ _ _ _ _ (fun _ => eq_refl) eq_refl Hp). }
  intros Hin.
  destruct Hrun as [r d1 sel Hs Hr|d1 sel r b Hs _ Hr|d1 sel b y Hs _ Hp];
    cbn [result trace fst snd] in *.
  - rewrite (Hsel _ _ _ Hs Hin). split; [eauto|discriminate].
  - apply in_app_or in Hin. destruct Hin as [Hin|[<-|[]]].
    + rewrite (Hsel _ _ _ Hs Hin). split; [eauto|discriminate].
    + split; [discriminate|eauto].
  - apply in_app_or in Hin. destruct Hin as [Hin|[<-|Hin]].
    + rewrite (Hsel _ _ _ Hs Hin). split; [eauto|discriminate].
    + split; [discriminate|eauto].
    + apply in_app_or in Hin. destruct Hin as [Hin|Hin].
      * destruct (Hpoll _ _ _ _ Hp Hin) as [-> ->]. split; discriminate.
      * destruct (result y =? 5); [|destruct Hin].
        destruct Hin as [<-|[]]. split; discriminate.
Qed.

Lemma op_run_triggers : (count is_trigger (trace x) <= 1)%nat.
Proof.
  destruct Hrun as [r d1 sel Hs Hr|d1 sel r b Hs _ Hr|d1 sel b y Hs _ Hp];
    cbn [result trace fst snd]; counts;
    rewrite (page_select_count0 is_trigger _ _ _ _ _ (fun _ _ => eq_refl) Hs);
    cbn [is_trigger]; rewrite ?Z.eqb_refl; try lia.
  rewrite (poll_run_count0 is_trigger _ _ _ _ (fun _ => eq_refl) eq_refl Hp).
  destruct (result y =? 5); counts; cbn; lia.
Qed.

End OpMore.

(** ** The read accessors, continued *)

Lemma io_read_shape {B : Type} {bus : mii_bus B} w page reg (d : b53_device B) :
  (result (b53_mdio_op page reg REG_MII_ADDR_READ d) <> 0 ->
   result (io_read b53_mdio_ops w page reg d) =
     (result (b53_mdio_op page reg REG_MII_ADDR_READ d), None) /\
   trace (io_read b53_mdio_ops w page reg d) =
     trace (b53_mdio_op page reg REG_MII_ADDR_READ d)) /\
  (result (b53_mdio_op page reg REG_MII_ADDR_READ d) = 0 ->
   exists rs,
     length rs = length (read_regs w) /\
     trace (io_read b53_mdio_ops w page reg d) =
       trace (b53_mdio_op page reg REG_MII_ADDR_READ d) ++ read_events (read_regs w) rs /\
     result (io_read b53_mdio_ops w page reg d) = (0, Some (assemble w rs))).
Proof.
  destruct w;
    cbn [io_read b53_mdio_ops read8 read16 read32 read48 read64];
    unfold b53_mdio_read8, b53_mdio_read16, b53_mdio_read32, b53_mdio_read48,
      b53_mdio_read64, mbind;
    destruct (b53_mdio_op page reg REG_MII_ADDR_READ d) as [[r d1] t];
    cbn [result trace fst snd];
    (destruct (r =? 0) eqn:Er; cbn [negb];
     [apply Z.eqb_eq in Er; subst r; split; [congruence|intros _]
     |apply Z.eqb_neq in Er; unfold mret; cbn [result trace fst snd];
      rewrite app_nil_r; split; [auto|congruence]]);
    cbn [read_slots]; unfold mbind, bus_read, mret;
    repeat match goal with
      | |- context [mdiobus_read ?b ?p ?sreg] =>
          let r := fresh "r" in let b' := fresh "b" in
          destruct (mdiobus_read b p sreg) as [r b']; cbn [priv current_page]
      end;
    cbn [result trace fst snd app].
  - exists [r]. repeat split.
  - exists [r]. repeat split.
  - exists [r; r0]. repeat split.
  - exists [r; r0; r1]. repeat split.
  - exists [r; r0; r1; r2]. repeat split.
Qed.

(** ** Arithmetic of the slot codec *)

Lemma lor_shiftl_add hi lo :
  0 <= lo < 2 ^ 16 -> Z.lor (Z.shiftl hi 16) lo = hi * 2 ^ 16 + lo.
Proof.
  intros Hlo. rewrite <- Z.shiftl_mul_pow2 by lia.
  rewrite <- (Z.add_lor_land (Z.shiftl hi 16) lo).
  replace (Z.land (Z.shiftl hi 16) lo) with 0; [lia|].
  symmetry. rewrite <- (Z.mod_small lo (2 ^ 16)) by lia.
  apply Z.bits_inj'. intros n Hn. rewrite Z.bits_0.
  destruct (Z.lt_ge_cases n 16); repeat testbit_step; repeat ltb_step;
    cbn [andb]; rewrite ?andb_false_r; reflexivity.
Qed.

Lemma lor_bound a b n :
  0 <= n -> 0 <= a < 2 ^ n -> 0 <= b < 2 ^ n -> 0 <= Z.lor a b < 2 ^ n.
Proof.
  intros Hn Ha Hb. split; [apply Z.lor_nonneg; lia|].
  destruct (Z.eq_dec n 0) as [->|Hn0].
  { change (2 ^ 0) with 1 in *. replace a with 0 by lia. replace b with 0 by lia.
    simpl. lia. }
  destruct (Z.eq_dec (Z.lor a b) 0) as [->|Hz]; [lia|].
  apply Z.log2_lt_pow2; [pose proof (proj2 (Z.lor_nonneg a b)); lia|].
  rewrite Z.log2_lor by lia.
  assert (Z.log2 a < n).
  { destruct (Z.eq_dec a 0) as [->|]; [simpl; lia|apply Z.log2_lt_pow2; lia]. }
  assert (Z.log2 b < n).
  { destruct (Z.eq_dec b 0) as [->|]; [simpl; lia|apply Z.log2_lt_pow2; lia]. }
  lia.
Qed.

Lemma u_range x k : 0 <= k -> 0 <= x mod 2 ^ k < 2 ^ k.
Proof. intros. apply Z.mod_pos_bound. lia. Qed.

Lemma assemble_range w rs :
  length rs = length (read_regs w) -> 0 <= assemble w rs < 2 ^ ctype_bits w.
Proof.
  destruct w; cbn [read_regs length assemble ctype_bits]; intros Hl.
  - apply u_range; lia.
  - apply u_range; lia.
  - apply lor_bound; [lia| |]; apply u_range; lia.
  - destruct rs as [|r2 [|r1 [|r0 [|]]]]; try discriminate. cbn [fold_left].
    apply lor_bound; [lia| |]; apply u_range; lia.
  - destruct rs as [|r3 [|r2 [|r1 [|r0 [|]]]]]; try discriminate. cbn [fold_left].
    apply lor_bound; [lia| |]; apply u_range; lia.
Qed.

Lemma assemble_small32 r0 r1 :
  0 <= r0 < 2 ^ 16 -> 0 <= r1 < 2 ^ 16 ->
  assemble W32 [r0; r1] = r0 + r1 * 2 ^ 16.
Proof.
  intros H0 H1. cbn [assemble nth].
  rewrite Z.lor_comm. unfold u32.
  rewrite (Z.mod_small r0) by lia.
  rewrite Z.shiftl_mul_pow2 by lia. rewrite (Z.mod_small (r1 * 2 ^ 16)) by lia.
  rewrite <- Z.shiftl_mul_pow2 by lia. rewrite lor_shiftl_add by lia.
  rewrite ?Z.shiftl_mul_pow2 by lia. lia.
Qed.

Lemma assemble_step temp r :
  0 <= temp < 2 ^ 48 -> 0 <= r < 2 ^ 16 ->
  Z.lor (u64 (Z.shiftl temp 16)) (u64 r) = temp * 2 ^ 16 + r.
Proof.
  intros Ht Hr. unfold u64.
  rewrite (Z.mod_small r) by lia.
  rewrite Z.shiftl_mul_pow2 by lia. rewrite (Z.mod_small (temp * 2 ^ 16)) by lia.
  rewrite <- Z.shiftl_mul_pow2 by lia. rewrite lor_shiftl_add by lia.
  rewrite ?Z.shiftl_mul_pow2 by lia. lia.
Qed.

Lemma assemble_small48 r0 r1 r2 :
  0 <= r0 < 2 ^ 16 -> 0 <= r1 < 2 ^ 16 -> 0 <= r2 < 2 ^ 16 ->
  assemble W48 [r2; r1; r0] = r0 + r1 * 2 ^ 16 + r2 * 2 ^ 32.
Proof.
  intros H0 H1 H2. cbn [assemble fold_left].
  rewrite (assemble_step 0 r2) by lia.
  rewrite (assemble_step _ r1) by lia.
  rewrite (assemble_step _ r0) by lia. lia.
Qed.

Lemma assemble_small64 r0 r1 r2 r3 :
  0 <= r0 < 2 ^ 16 -> 0 <= r1 < 2 ^ 16 -> 0 <= r2 < 2 ^ 16 -> 0 <= r3 < 2 ^ 16 ->
  assemble W64 [r3; r2; r1; r0] = r0 + r1 * 2 ^ 16 + r2 * 2 ^ 32 + r3 * 2 ^ 48.
Proof.
  intros H0 H1 H2 H3. cbn [assemble fold_left].
  rewrite (assemble_step 0 r3) by lia.
  rewrite (assemble_step _ r2) by lia.
  rewrite (assemble_step _ r1) by lia.
  rewrite (assemble_step _ r0) by lia. lia.
Qed.

(** ** Slot reads of a trace *)

Lemma slot_reads_app a b : slot_reads (a ++ b) = slot_reads a ++ slot_reads b.
Proof.
  induction a as [|e a IH]; [reflexivity|].
  destruct e as [reg val ret|reg ret| |]; cbn [app slot_reads]; rewrite ?IH; try reflexivity.
  now destruct (is_slot reg).
Qed.

Lemma slot_reads_nil l : count is_slot_read l = 0%nat -> slot_reads l = [].
Proof.
  induction l as [|e l IH]; [reflexivity|].
  rewrite count_cons. intros H.
  destruct e as [reg val ret|reg ret| |]; cbn [is_slot_read slot_reads] in *;
    try (apply IH; exact H).
  destruct (is_slot reg); [discriminate|]. apply IH; exact H.
Qed.

Lemma slot_reads_read_events w rs :
  length rs = length (read_regs w) ->
  slot_reads (read_events (read_regs w) rs) = combine (read_regs w) rs.
Proof.
  destruct w; cbn [read_regs length]; intros Hl;
    repeat (destruct rs as [|? rs]; try discriminate); reflexivity.
Qed.

Lemma read_regs_length w : length (read_regs w) = slots w.
Proof. now destruct w. Qed.

Lemma io_read_cases {B : Type} {bus : mii_bus B} w page reg (d : b53_device B) :
  fst (result (io_read b53_mdio_ops w page reg d)) =
    result (b53_mdio_op page reg REG_MII_ADDR_READ d) /\
  (result (b53_mdio_op page reg REG_MII_ADDR_READ d) <> 0 ->
   slot_reads (trace (io_read b53_mdio_ops w page reg d)) = [] /\
   snd (result (io_read b53_mdio_ops w page reg d)) = None) /\
  (result (b53_mdio_op page reg REG_MII_ADDR_READ d) = 0 ->
   exists rs,
     length rs = slots w /\
     slot_reads (trace (io_read b53_mdio_ops w page reg d)) = combine (read_regs w) rs /\
     snd (result (io_read b53_mdio_ops w page reg d)) = Some (assemble w rs) /\
     trace (io_read b53_mdio_ops w page reg d) =
       trace (b53_mdio_op page reg REG_MII_ADDR_READ d) ++ read_events (read_regs w) rs).
Proof.
  destruct (io_read_shape w page reg d) as [Hfail Hok].
  pose proof (op_run_count0 _ _ _ _ _ (b53_mdio_op_run page reg REG_MII_ADDR_READ d)
                is_slot_read (fun _ _ => eq_refl) (fun _ _ => eq_refl)
                (fun _ => eq_refl) eq_refl eq_refl) as Hnone.
  apply slot_reads_nil in Hnone.
  destruct (Z.eq_dec (result (b53_mdio_op page reg REG_MII_ADDR_READ d)) 0) as [E|E].
  - destruct (Hok E) as (rs & Hl & Ht & Hr).
    split; [now rewrite Hr, E|]. split; [congruence|]. intros _.
    exists rs. rewrite <- read_regs_length. split; [exact Hl|].
    rewrite Ht, Hr, slot_reads_app, Hnone, (slot_reads_read_events _ _ Hl). auto.
  - destruct (Hfail E) as [Hr Ht].
    split; [now rewrite Hr|]. split; [|congruence]. intros _.
    rewrite Ht, Hr. auto.
Qed.

Lemma lor_low_error T e :
  - 2 ^ 16 <= e < 0 -> Z.lor (u64 (Z.shiftl T 16)) (u64 e) = 2 ^ 64 + e.
Proof.
  intros He.
  assert (Hbits : forall n, 16 <= n -> Z.testbit e n = true).
  { intros n Hn. apply Z.bits_above_log2_neg; [lia|].
    destruct (Z.eq_dec (Z.pred (- e)) 0) as [->|Hz]; [simpl; lia|].
    apply Z.lt_le_trans with 16; [|lia]. apply Z.log2_lt_pow2; lia. }
  replace (2 ^ 64 + e) with (u64 e).
  2:{ unfold u64. symmetry. apply Z.mod_unique with (-1); lia. }
  unfold u64. apply Z.bits_inj'. intros n Hn.
  destruct (Z.lt_ge_cases n 16); [|destruct (Z.lt_ge_cases n 64)];
    repeat testbit_step; repeat ltb_step; cbn [andb orb];
    rewrite ?Hbits by lia; rewrite ?orb_true_r; reflexivity.
Qed.

Lemma map_fst_combine_regs w (rs : list Z) :
  length rs = slots w -> map fst (combine (read_regs w) rs) = read_regs w.
Proof.
  destruct w; cbn [slots read_regs]; intros Hl;
    repeat (destruct rs as [|? rs]; try discriminate); reflexivity.
Qed.

Lemma write_success_staged {B : Type} {bus : mii_bus B} w V page reg (d : b53_device B) :
  result (io_write b53_mdio_ops w page reg V d) = 0 ->
  slot_writes (trace (io_write b53_mdio_ops w page reg V d)) = staged w V.
Proof.
  pose proof (b53_access_run (Wr w V) page reg d) as Hrun. cbn [b53_access] in Hrun.
  destruct Hrun as [pre sreg v r d1 _ _ Hr _|pre d1 y post d2 Hpre Hst Hd1 Hop Hpost _ _];
    cbn [result trace fst snd]; [congruence|]. intros _.
  destruct (op_run_no_slot_event page reg _ _ _ Hop) as (Hw & _ & _).
  rewrite !slot_writes_app, Hst, (slot_writes_nil _ Hw).
  rewrite (slot_writes_nil post (Forall_count0 _ _ _ Hpost slot_read_not_slot_write)).
  cbn [access_stage]. now rewrite !app_nil_r.
Qed.

(** ** Properties of the read accessors *)

(** X8, slot reads happen only after completion, in the order of the code.
    A read-N whose sequencer fails reads no data slot.  One that succeeds
    reads exactly its [slots w] data slots, right after the poll read
    that observed completion, in the order of the code: slot 0 for 8 and
    16 bits, slots 0, 1 for 32 bits, and from the highest slot down to
    slot 0 for 48 and 64 bits. *)
Theorem read_slots_in_code_order {B : Type} {bus : mii_bus B}
  (w : width) (page reg : Z) (d : b53_device B) :
  (fst (result (io_read b53_mdio_ops w page reg d)) <> 0 ->
   slot_reads (trace (io_read b53_mdio_ops w page reg d)) = []) /\
  (fst (result (io_read b53_mdio_ops w page reg d)) = 0 ->
   map fst (slot_reads (trace (io_read b53_mdio_ops w page reg d))) = read_regs w /\
   exists pre v rs,
     trace (io_read b53_mdio_ops w page reg d) =
       pre ++ EvRead REG_MII_ADDR v :: read_events (read_regs w) rs /\
     pending v = false /\ length rs = slots w /\ slot_reads pre = []).
Proof.
  destruct (io_read_cases w page reg d) as (Hres & Hfail & Hok).
  split.
  - intros Hne. rewrite Hres in Hne. exact (proj1 (Hfail Hne)).
  - intros He. rewrite Hres in He.
    destruct (Hok He) as (rs & Hl & Hsr & _ & Ht).
    split; [rewrite Hsr; now apply map_fst_combine_regs|].
    destruct (op_run_success_ends_clear _ _ _ _ _
                (b53_mdio_op_run page reg REG_MII_ADDR_READ d) He)
      as (pre & v & Hty & Hv).
    exists pre, v, rs. rewrite Ht, Hty, <- app_assoc.
    repeat split; auto.
    pose proof (op_run_count0 _ _ _ _ _ (b53_mdio_op_run page reg REG_MII_ADDR_READ d)
                  is_slot_read (fun _ _ => eq_refl) (fun _ _ => eq_refl)
                  (fun _ => eq_refl) eq_refl eq_refl) as Hnone.
    rewrite Hty, count_app in Hnone.
    apply slot_reads_nil. lia.
Qed.

Lemma read_slots_in_code_order_witness :
  slot_reads (trace (io_read b53_mdio_ops W64 1 2 (b53_phy_probe (ConstBus (-5) 0)))) = [] /\
  map fst (slot_reads (trace (io_read b53_mdio_ops W64 1 2 (b53_phy_probe sim_init)))) =
    [REG_MII_DATA3; REG_MII_DATA2; REG_MII_DATA1; REG_MII_DATA0].
Proof.
  split.
  - apply (proj1 (read_slots_in_code_order W64 1 2 (b53_phy_probe (ConstBus (-5) 0)))).
    vm_compute. discriminate.
  - apply (proj2 (read_slots_in_code_order W64 1 2 (b53_phy_probe sim_init))).
    vm_compute. reflexivity.
Defined.

(** X9, reassembly. When a read-N succeeds and each of its slot reads
    returned a 16-bit value, the value it returns is the little-endian
    combination of the slots, slot [i] at bit offset [16*i], reduced to
    the width (which only cuts the 8-bit read down to the low byte of
    slot 0). *)
Theorem read_reassembles_slots {B : Type} {bus : mii_bus B}
  (w : width) (page reg : Z) (d : b53_device B) :
  fst (result (io_read b53_mdio_ops w page reg d)) = 0 ->
  (forall sreg r,
      In (sreg, r) (slot_reads (trace (io_read b53_mdio_ops w page reg d))) ->
      0 <= r < 2 ^ 16) ->
  snd (result (io_read b53_mdio_ops w page reg d)) =
    Some (le_value (slots w)
            (slot_val (slot_reads (trace (io_read b53_mdio_ops w page reg d))))
          mod 2 ^ bits w).
Proof.
  destruct (io_read_cases w page reg d) as (Hres & _ & Hok).
  intros He Hrng. rewrite Hres in He.
  destruct (Hok He) as (rs & Hl & Hsr & Hv & _).
  rewrite Hv, Hsr. rewrite Hsr in Hrng. f_equal.
  destruct w; cbn [slots read_regs] in *;
    repeat (destruct rs as [|? rs]; try discriminate);
    cbn [combine] in *.
  - pose proof (Hrng _ _ (or_introl eq_refl)).
    cbn [assemble nth le_value bits]. change (slot_val _ 0) with z.
    unfold u8. change 255 with (Z.ones 8). rewrite Z.land_ones by lia.
    rewrite Z.mod_mod by lia. f_equal. change (2 ^ (16 * Z.of_nat 0)) with 1. lia.
  - pose proof (Hrng _ _ (or_introl eq_refl)).
    cbn [assemble nth le_value bits]. change (slot_val _ 0) with z.
    unfold u16. f_equal. change (2 ^ (16 * Z.of_nat 0)) with 1. lia.
  - pose proof (Hrng _ _ (or_introl eq_refl)).
    pose proof (Hrng _ _ (or_intror (or_introl eq_refl))).
    rewrite assemble_small32 by assumption.
    cbn [le_value bits]. change (slot_val _ 0) with z. change (slot_val _ 1) with z0.
    change (2 ^ (16 * Z.of_nat 0)) with 1. change (2 ^ (16 * Z.of_nat 1)) with (2 ^ 16).
    rewrite Z.mod_small; lia.
  - pose proof (Hrng _ _ (or_introl eq_refl)).
    pose proof (Hrng _ _ (or_intror (or_introl eq_refl))).
    pose proof (Hrng _ _ (or_intror (or_intror (or_introl eq_refl)))).
    rewrite assemble_small48 by assumption.
    cbn [le_value bits]. change (slot_val _ 0) with z1. change (slot_val _ 1) with z0.
    change (slot_val _ 2) with z.
    change (2 ^ (16 * Z.of_nat 0)) with 1. change (2 ^ (16 * Z.of_nat 1)) with (2 ^ 16).
    change (2 ^ (16 * Z.of_nat 2)) with (2 ^ 32).
    rewrite Z.mod_small; lia.
  - pose proof (Hrng _ _ (or_introl eq_refl)).
    pose proof (Hrng _ _ (or_intror (or_introl eq_refl))).
    pose proof (Hrng _ _ (or_intror (or_intror (or_introl eq_refl)))).
    pose proof (Hrng _ _ (or_intror (or_intror (or_intror (or_introl eq_refl))))).
    rewrite assemble_small64 by assumption.
    cbn [le_value bits]. change (slot_val _ 0) with z2. change (slot_val _ 1) with z1.
    change (slot_val _ 2) with z0. change (slot_val _ 3) with z.
    change (2 ^ (16 * Z.of_nat 0)) with 1. change (2 ^ (16 * Z.of_nat 1)) with (2 ^ 16).
    change (2 ^ (16 * Z.of_nat 2)) with (2 ^ 32). change (2 ^ (16 * Z.of_nat 3)) with (2 ^ 48).
    rewrite Z.mod_small; lia.
Qed.

Ltac in_cases H :=
  repeat (destruct H as [H|H];
          [injection H as <- <-; vm_compute; split; [discriminate|reflexivity]|]);
  destruct H.

Lemma read_reassembles_slots_witness :
  snd (result (io_read b53_mdio_ops W64 1 2
                 (b53_phy_probe [0; 0; 0; 0xd; 0xc; 0xb; 0xa]))) =
    Some (le_value (slots W64)
            (slot_val (slot_reads (trace (io_read b53_mdio_ops W64 1 2
                                            (b53_phy_probe [0; 0; 0; 0xd; 0xc; 0xb; 0xa])))))
          mod 2 ^ bits W64).
Proof.
  apply (read_reassembles_slots W64 1 2 (b53_phy_probe [0; 0; 0; 0xd; 0xc; 0xb; 0xa])).
  - vm_compute. reflexivity.
  - intros sreg r Hin. vm_compute in Hin. in_cases Hin.
Defined.

(** X10, the value fits the C type. Whatever the bus returns, also
    negative error codes, the value a read-N stores is within the range
    of the C type of [*val]: 8, 16, 32 bits, and 64 bits for both the
    48-bit and the 64-bit read. *)
Theorem read_value_fits_type {B : Type} {bus : mii_bus B}
  (w : width) (page reg : Z) (d : b53_device B) (v : Z) :
  snd (result (io_read b53_mdio_ops w page reg d)) = Some v ->
  fst (result (io_read b53_mdio_ops w page reg d)) = 0 /\
  0 <= v < 2 ^ ctype_bits w.
Proof.
  destruct (io_read_cases w page reg d) as (Hres & Hfail & Hok).
  intros Hv.
  destruct (Z.eq_dec (result (b53_mdio_op page reg REG_MII_ADDR_READ d)) 0) as [E|E].
  - destruct (Hok E) as (rs & Hl & _ & Hv' & _).
    rewrite Hv' in Hv. injection Hv as <-.
    split; [congruence|]. apply assemble_range. now rewrite read_regs_length.
  - destruct (Hfail E) as [_ Hn]. congruence.
Qed.

Lemma read_value_fits_type_witness :
  fst (result (io_read b53_mdio_ops W32 1 2 (b53_phy_probe [0; 0; 0; -5; -19]))) = 0 /\
  0 <= 0xfffffffb < 2 ^ ctype_bits W32.
Proof.
  apply (read_value_fits_type W32 1 2 (b53_phy_probe [0; 0; 0; -5; -19])).
  vm_compute. reflexivity.
Defined.

(** X11, a failed read of slot 0 in the wide reads. In the 48-bit and
    the 64-bit read, slot 0 is read last and or-ed in as a sign-extended
    [int]: when that read fails with an errno [e] (at least -65536) the
    call still succeeds and the value it stores is [2^64 + e], whatever
    the other slots returned. *)
Theorem wide_read_low_slot_error {B : Type} {bus : mii_bus B}
  (w : width) (page reg : Z) (d : b53_device B) (e : Z) :
  w = W48 \/ w = W64 ->
  In (REG_MII_DATA0, e) (slot_reads (trace (io_read b53_mdio_ops w page reg d))) ->
  - 2 ^ 16 <= e < 0 ->
  result (io_read b53_mdio_ops w page reg d) = (0, Some (2 ^ 64 + e)).
Proof.
  destruct (io_read_cases w page reg d) as (Hres & Hfail & Hok).
  intros Hw Hin He.
  destruct (Z.eq_dec (result (b53_mdio_op page reg REG_MII_ADDR_READ d)) 0) as [E|E].
  2:{ destruct (Hfail E) as [Hn _]. rewrite Hn in Hin. destruct Hin. }
  destruct (Hok E) as (rs & Hl & Hsr & Hv & _).
  rewrite Hsr in Hin.
  rewrite (surjective_pairing (result (io_read b53_mdio_ops w page reg d))).
  rewrite Hres, E, Hv. do 2 f_equal.
  destruct Hw as [-> | ->]; cbn [slots read_regs] in *;
    repeat (destruct rs as [|? rs]; try discriminate);
    cbn [combine] in Hin;
    repeat (destruct Hin as [Hin|Hin];
            [first [injection Hin as Hreg Hval; vm_compute in Hreg; discriminate Hreg
                   |inversion Hin; subst; cbn [assemble fold_left];
                    apply lor_low_error; assumption]|]);
    destruct Hin.
Qed.

Lemma wide_read_low_slot_error_witness :
  result (io_read b53_mdio_ops W48 1 2 (b53_phy_probe [0; 0; 0; 3; 2; -5])) =
    (0, Some (2 ^ 64 + -5)).
Proof.
  apply (wide_read_low_slot_error W48 1 2 (b53_phy_probe [0; 0; 0; 3; 2; -5]) (-5)).
  - now left.
  - vm_compute. right. right. left. reflexivity.
  - lia.
Defined.

(** ** Round trip on any transport *)

Lemma staged_values w V sreg r :
  In (sreg, r) (staged w V) ->
  exists i, (i < slots w)%nat /\ sreg = REG_MII_DATA0 + Z.of_nat i /\
            r = Z.land (Z.shiftr V (16 * Z.of_nat i)) 0xffff.
Proof.
  unfold staged. intros Hin. apply in_map_iff in Hin.
  destruct Hin as (i & Heq & Hi). apply in_seq in Hi.
  injection Heq as <- <-. exists i. repeat split. lia.
Qed.

Ltac staged_slot H :=
  apply staged_values in H;
  let i := fresh "i" in let Hi := fresh "Hi" in
  let Hr := fresh "Hr" in let Hv := fresh "Hv" in
  destruct H as (i & Hi & Hr & Hv);
  cbn [slots] in Hi;
  destruct i as [|[|[|[|i]]]];
  try (exfalso; lia);
  try (exfalso; vm_compute in Hr; discriminate Hr).

Ltac bitblast_more :=
  bitblast; cbn [andb orb]; rewrite ?orb_false_r, ?andb_true_r;
  try reflexivity; try (f_equal; lia).

(** X12, round trip on a relaying transport. On any two runs, over any
    transports: if write-N of a value [V] that fits in N bits succeeded,
    and a read-N succeeds whose every slot read returns what that
    write-N wrote to the same slot, then the read-N returns [V]. *)
Theorem roundtrip_when_slots_relayed
  {B : Type} {bus : mii_bus B} {B' : Type} {bus' : mii_bus B'}
  (w : width) (V page reg page' reg' : Z) (d : b53_device B) (d' : b53_device B') :
  0 <= V < 2 ^ bits w ->
  result (io_write b53_mdio_ops w page reg V d) = 0 ->
  fst (result (io_read b53_mdio_ops w page' reg' d')) = 0 ->
  (forall sreg r,
      In (sreg, r) (slot_reads (trace (io_read b53_mdio_ops w page' reg' d'))) ->
      In (sreg, r) (slot_writes (trace (io_write b53_mdio_ops w page reg V d)))) ->
  snd (result (io_read b53_mdio_ops w page' reg' d')) = Some V.
Proof.
  intros HV Hw Hr Hrel.
  rewrite (write_success_staged w V page reg d Hw) in Hrel.
  destruct (io_read_cases w page' reg' d') as (Hres & _ & Hok).
  rewrite Hres in Hr. destruct (Hok Hr) as (rs & Hl & Hsr & Hv & _).
  rewrite Hv, Hsr in *. f_equal.
  rewrite <- (Z.mod_small V (2 ^ bits w)) by exact HV.
  clear Hv Hsr Hok Hres Hr Hw HV.
  destruct w; cbn [slots read_regs bits] in *;
    repeat (destruct rs as [|? rs]; try discriminate);
    cbn [combine] in Hrel; cbn [assemble nth fold_left].
  - pose proof (Hrel _ _ (or_introl eq_refl)) as H0. staged_slot H0. subst.
    cbn [Z.of_nat Z.mul]. bitblast_more.
  - pose proof (Hrel _ _ (or_introl eq_refl)) as H0. staged_slot H0. subst.
    cbn [Z.of_nat Z.mul]. bitblast_more.
  - pose proof (Hrel _ _ (or_introl eq_refl)) as H0.
    pose proof (Hrel _ _ (or_intror (or_introl eq_refl))) as H1.
    staged_slot H0. staged_slot H1. subst.
    cbn [Z.of_nat Z.mul Pos.of_succ_nat Pos.succ Pos.mul]. bitblast_more.
  - pose proof (Hrel _ _ (or_introl eq_refl)) as H2.
    pose proof (Hrel _ _ (or_intror (or_introl eq_refl))) as H1.
    pose proof (Hrel _ _ (or_intror (or_intror (or_introl eq_refl)))) as H0.
    staged_slot H0. staged_slot H1. staged_slot H2. subst.
    cbn [Z.of_nat Z.mul Pos.of_succ_nat Pos.succ Pos.mul]. bitblast_more.
  - pose proof (Hrel _ _ (or_introl eq_refl)) as H3.
    pose proof (Hrel _ _ (or_intror (or_introl eq_refl))) as H2.
    pose proof (Hrel _ _ (or_intror (or_intror (or_introl eq_refl)))) as H1.
    pose proof (Hrel _ _ (or_intror (or_intror (or_intror (or_introl eq_refl))))) as H0.
    staged_slot H0. staged_slot H1. staged_slot H2. staged_slot H3. subst.
    cbn [Z.of_nat Z.mul Pos.of_succ_nat Pos.succ Pos.mul]. bitblast_more.
Qed.

(** ** Words on the wire *)

Lemma lor_shiftl8_add hi lo :
  0 <= lo < 2 ^ 8 -> Z.lor (Z.shiftl hi 8) lo = hi * 2 ^ 8 + lo.
Proof.
  intros Hlo. rewrite <- Z.shiftl_mul_pow2 by lia.
  rewrite <- (Z.add_lor_land (Z.shiftl hi 8) lo).
  replace (Z.land (Z.shiftl hi 8) lo) with 0; [lia|].
  symmetry. rewrite <- (Z.mod_small lo (2 ^ 8)) by lia.
  apply Z.bits_inj'. intros n Hn. rewrite Z.bits_0.
  destruct (Z.lt_ge_cases n 8); repeat testbit_step; repeat ltb_step;
    cbn [andb]; rewrite ?andb_false_r; reflexivity.
Qed.

Lemma page_word_value page :
  0 <= page < 256 ->
  page_word page = page * 256 + 1 /\ Z.shiftr (page_word page) 8 = page.
Proof.
  intros Hp. unfold page_word, REG_MII_PAGE_ENABLE, u16.
  rewrite lor_shiftl8_add by lia. change (2 ^ 8) with 256.
  rewrite Z.mod_small by lia. split; [reflexivity|].
  rewrite Z.shiftr_div_pow2 by lia. change (2 ^ 8) with 256.
  Z.div_mod_to_equations. lia.
Qed.

Lemma addr_word_value reg op :
  0 <= reg < 256 -> 0 <= op < 4 ->
  addr_word reg op = reg * 256 + op /\
  Z.shiftr (addr_word reg op) 8 = reg /\ Z.land (addr_word reg op) 3 = op.
Proof.
  intros Hr Ho. unfold addr_word, u16.
  rewrite lor_shiftl8_add by lia. change (2 ^ 8) with 256.
  rewrite Z.mod_small by lia. split; [reflexivity|]. split.
  - rewrite Z.shiftr_div_pow2 by lia. change (2 ^ 8) with 256.
    Z.div_mod_to_equations. lia.
  - change 3 with (Z.ones 2). rewrite Z.land_ones by lia. change (2 ^ 2) with 4.
    Z.div_mod_to_equations. lia.
Qed.

(** ** The page cache and the bus *)

Lemma last_selected_app a b c :
  last_selected (a ++ b) c = last_selected b (last_selected a c).
Proof. unfold last_selected. apply fold_left_app. Qed.

Lemma last_selected_noop tr c :
  count is_page_select tr = 0%nat -> last_selected tr c = c.
Proof.
  revert c. induction tr as [|e tr IH]; intros c; [reflexivity|].
  rewrite count_cons. intros H.
  change (last_selected (e :: tr) c) with
    (last_selected tr (last_selected [e] c)).
  destruct e as [ereg val ret|ereg ret| |]; cbn [is_page_select] in H;
    try (rewrite IH; [reflexivity|lia]).
  destruct (ereg =? REG_MII_PAGE) eqn:E; [lia|].
  rewrite IH by lia. unfold last_selected. cbn [fold_left]. now rewrite E.
Qed.

Section OpPage.
Context {B : Type} {bus : mii_bus B}.
Variables page reg op : Z.
Variable d : b53_device B.
Variable x : Z * b53_device B * list event.
Hypothesis Hrun : op_run page reg op d x.

Lemma op_run_rest_no_select :
  exists r d1 sel rest,
    page_select page d r d1 sel /\ trace x = sel ++ rest /\
    count is_page_select rest = 0%nat /\
    current_page (final x) = current_page d1.
Proof.
  destruct Hrun as [r d1 sel Hs Hr|d1 sel r b Hs _ Hr|d1 sel b y Hs _ Hp];
    cbn [result final trace fst snd].
  - exists r, d1, sel, []. rewrite app_nil_r. auto.
  - exists 0, d1, sel, [EvWrite REG_MII_ADDR (addr_word reg op) r]. auto.
  - exists 0, d1, sel,
      (EvWrite REG_MII_ADDR (addr_word reg op) 0
         :: trace y ++ (if result y =? 5 then [EvWarn] else [])).
    repeat split; auto.
    + counts. rewrite (poll_run_count0 is_page_select _ _ _ _ (fun _ => eq_refl) eq_refl Hp).
      destruct (result y =? 5); counts; reflexivity.
    + now rewrite (poll_run_page _ _ _ _ Hp).
Qed.

Lemma op_run_tracks_bus :
  0 <= page < 256 ->
  current_page (final x) = last_selected (trace x) (current_page d).
Proof.
  intros Hpage.
  destruct op_run_rest_no_select as (r & d1 & sel & rest & Hs & Ht & Hc & Hf).
  rewrite Hf, Ht, last_selected_app, (last_selected_noop rest _ Hc).
  destruct Hs as [Hcur|r b Hne Hw Hr|b Hne Hw]; cbn [current_page with_bus].
  - reflexivity.
  - unfold last_selected. cbn [fold_left]. rewrite Z.eqb_refl.
    apply Z.eqb_neq in Hr. now rewrite Hr.
  - unfold last_selected. cbn [fold_left]. rewrite Z.eqb_refl. cbn [Z.eqb andb].
    symmetry. exact (proj2 (page_word_value page Hpage)).
Qed.

Lemma op_run_page_unless_failed :
  count is_failed_write (trace x) = 0%nat -> current_page (final x) = page.
Proof.
  destruct op_run_rest_no_select as (r & d1 & sel & rest & Hs & Ht & _ & Hf).
  rewrite Hf, Ht, count_app.
  destruct Hs as [Hcur|r b Hne Hw Hr|b Hne Hw]; cbn [current_page with_bus]; auto.
  counts. cbn [is_failed_write]. apply Z.eqb_neq in Hr. rewrite Hr. cbn. lia.
Qed.

Lemma op_run_bus_count : (count is_bus (trace x) <= 7)%nat.
Proof.
  assert (Hpoll : forall n i d0 y, poll_run n i d0 y ->
            count is_bus (trace y) = count is_poll (trace y)).
  { induction 1; cbn [trace snd] in *; counts; cbn [is_bus is_poll];
      rewrite ?Z.eqb_refl; lia. }
  destruct Hrun as [r d1 sel Hs Hr|d1 sel r b Hs _ Hr|d1 sel b y Hs _ Hp];
    cbn [result final trace fst snd]; counts;
    destruct (page_select_shape _ _ _ _ _ Hs) as [->| ->]; counts; cbn [is_bus];
    try lia.
  all: rewrite (Hpoll _ _ _ _ Hp); pose proof (poll_run_count _ _ _ _ Hp);
    destruct (result y =? 5); counts; cbn [is_bus]; lia.
Qed.

End OpPage.

(** ** The write accessors, continued *)

Lemma stage_length {B : Type} {bus : mii_bus B} n :
  forall i temp (d : b53_device B), (length (trace (stage n i temp d)) <= n)%nat.
Proof.
  induction n as [|n IH]; intros i temp d; [cbn; lia|].
  cbn [stage]. unfold mbind, bus_write, mret.
  destruct (mdiobus_write (priv d) _ _ _) as [r b].
  destruct (negb (r =? 0)); [cbn; lia|].
  specialize (IH (i + 1) (Z.shiftr temp 16) {| priv := b; current_page := current_page d |}).
  destruct (stage n (i + 1) _ _) as [[r' d'] t']. cbn [trace snd app length] in *. lia.
Qed.

Lemma staging_ok_slot_writes {B : Type} {bus : mii_bus B} w V (d : b53_device B) x :
  staging_ok w V d x ->
  Forall (fun e => is_slot_write e = true) (trace x) /\
  (result x = 0 -> count is_failed_write (trace x) = 0%nat).
Proof.
  assert (Hok : forall l, Forall (fun e => is_ok_slot_write e = true) l ->
            Forall (fun e => is_slot_write e = true) l /\
            count is_failed_write l = 0%nat).
  { intros l Hl. split.
    - eapply Forall_impl; [|exact Hl]. intros [sreg v r| | |]; try discriminate.
      cbn. intros H. now apply andb_true_iff in H.
    - apply (Forall_count0 _ _ _ Hl). intros [sreg v r| | |]; try discriminate.
      cbn. intros H. apply andb_true_iff in H. destruct H as [_ ->]. reflexivity. }
  intros [_ [[Hr [Hall _]]|[Hr (pre & sreg & v & Ht & Hs & Hall)]]].
  - destruct (Hok _ Hall). auto.
  - destruct (Hok _ Hall) as [H1 _]. split; [|congruence].
    rewrite Ht. apply Forall_app. split; [exact H1|]. repeat constructor. exact Hs.
Qed.

Lemma io_write_shape {B : Type} {bus : mii_bus B} w V page reg (d : b53_device B) :
  exists st : M B Z,
    io_write b53_mdio_ops w page reg V d =
      mbind st (fun ret => if negb (ret =? 0) then mret ret
                           else b53_mdio_op page reg REG_MII_ADDR_WRITE) d /\
    staging_ok w V d (st d) /\
    (length (trace (st d)) <= slots w)%nat.
Proof.
  destruct w.
  - exists (bus_write REG_MII_DATA0 V). split; [reflexivity|].
    split; [now apply bus_write_staging_ok|].
    unfold bus_write. destruct (mdiobus_write _ _ _ _). cbn. lia.
  - exists (bus_write REG_MII_DATA0 V). split; [reflexivity|].
    split; [now apply bus_write_staging_ok|].
    unfold bus_write. destruct (mdiobus_write _ _ _ _). cbn. lia.
  - exists (stage 2 0 V). split; [reflexivity|].
    split; [apply (stage_staging_ok W32); cbn; lia|apply stage_length].
  - exists (stage 3 0 V). split; [reflexivity|].
    split; [apply (stage_staging_ok W48); cbn; lia|apply stage_length].
  - exists (stage 4 0 V). split; [reflexivity|].
    split; [apply (stage_staging_ok W64); cbn; lia|apply stage_length].
Qed.

Lemma count_le_length p (l : list event) : (count p l <= length l)%nat.
Proof. unfold count. apply filter_length_le. Qed.

Lemma io_write_trace {B : Type} {bus : mii_bus B} w V page reg (d : b53_device B) :
  exists pre rest,
    trace (io_write b53_mdio_ops w page reg V d) = pre ++ rest /\
    Forall (fun e => is_slot_write e = true) pre /\
    (length pre <= slots w)%nat /\
    (rest = [] \/
     exists d1, rest = trace (b53_mdio_op page reg REG_MII_ADDR_WRITE d1) /\
                count is_failed_write pre = 0%nat).
Proof.
  destruct (io_write_shape w V page reg d) as (st & Heq & Hok & Hlen).
  rewrite Heq. unfold mbind.
  destruct (staging_ok_slot_writes _ _ _ _ Hok) as [Hall Hnf].
  destruct (st d) as [[r d1] pre]. cbn [result trace fst snd] in *.
  destruct (r =? 0) eqn:Er; cbn [negb].
  - apply Z.eqb_eq in Er.
    destruct (b53_mdio_op page reg REG_MII_ADDR_WRITE d1) as [[r2 d2] t2] eqn:Eop.
    exists pre, t2. cbn [trace snd]. repeat split; auto.
    right. exists d1. rewrite Eop. auto.
  - exists pre, []. unfold mret. cbn [trace snd]. auto.
Qed.

Lemma roundtrip_when_slots_relayed_witness :
  snd (result (io_read b53_mdio_ops W32 5 6 (b53_phy_probe [0; 0; 0; 0x0001; 0xcafe]))) =
    Some 0xcafe0001.
Proof.
  apply (roundtrip_when_slots_relayed W32 0xcafe0001 1 2 5 6
           (b53_phy_probe sim_init) (b53_phy_probe [0; 0; 0; 0x0001; 0xcafe])).
  - cbn [bits]. lia.
  - vm_compute. reflexivity.
  - vm_compute. reflexivity.
  - intros sreg r Hin. vm_compute in Hin. vm_compute. exact Hin.
Defined.

(** ** Shape of an access *)

Lemma read_events_slot_reads regs rs :
  Forall (fun sreg => is_slot sreg = true) regs ->
  Forall (fun e => is_slot_read e = true) (read_events regs rs).
Proof.
  intros Hregs. revert rs. induction Hregs as [|sreg regs Hs _ IH]; intros rs;
    [constructor|].
  destruct rs as [|r rs]; [constructor|].
  unfold read_events. cbn [combine map fst snd]. constructor; [exact Hs|apply IH].
Qed.

Lemma read_events_length regs rs :
  length rs = length regs -> length (read_events regs rs) = length regs.
Proof.
  intros Hl. unfold read_events. rewrite length_map, length_combine. lia.
Qed.

Lemma read_regs_slots w : Forall (fun sreg => is_slot sreg = true) (read_regs w).
Proof. destruct w; repeat constructor. Qed.

Lemma access_trace_split {B : Type} {bus : mii_bus B} a page reg (d : b53_device B) :
  exists pre mid post,
    trace (b53_access a page reg d) = pre ++ mid ++ post /\
    Forall (fun e => is_slot_write e = true) pre /\
    Forall (fun e => is_slot_read e = true) post /\
    (length pre + length post <= slots (access_width a))%nat /\
    (mid = [] \/ exists d1, mid = trace (b53_mdio_op page reg (opcode a) d1)) /\
    match a with Rd _ => pre = [] | Wr _ _ => post = [] end.
Proof.
  destruct a as [w|w V].
  - destruct (access_read_eq w page reg d) as [_ ->].
    destruct (io_read_shape w page reg d) as [Hfail Hok].
    destruct (Z.eq_dec (result (b53_mdio_op page reg REG_MII_ADDR_READ d)) 0) as [E|E].
    + destruct (Hok E) as (rs & Hl & Ht & _).
      exists [], (trace (b53_mdio_op page reg REG_MII_ADDR_READ d)),
        (read_events (read_regs w) rs).
      rewrite Ht. repeat split; auto.
      * apply read_events_slot_reads, read_regs_slots.
      * cbn [length access_width Nat.add].
        rewrite (read_events_length _ _ Hl), read_regs_length. lia.
      * right. now exists d.
    + destruct (Hfail E) as [_ Ht].
      exists [], (trace (b53_mdio_op page reg REG_MII_ADDR_READ d)), [].
      rewrite Ht, app_nil_r. repeat split; auto.
      * cbn. lia.
      * right. now exists d.
  - cbn [b53_access].
    destruct (io_write_trace w V page reg d) as (pre & rest & Ht & Hall & Hlen & Hrest).
    exists pre, rest, []. rewrite Ht, app_nil_r. repeat split; auto.
    + cbn [length access_width]. lia.
    + destruct Hrest as [->|(d1 & -> & _)]; [now left|right; now exists d1].
Qed.

Lemma slot_write_not_x e :
  is_slot_write e = true ->
  is_sleep e = false /\ is_warn e = false /\ is_trigger e = false /\
  is_slot_read e = false /\ is_bus e = true.
Proof.
  destruct e as [sreg v r| | |]; try discriminate. cbn. intros H.
  now rewrite (slot_not_addr _ H).
Qed.

Lemma slot_read_not_x e :
  is_slot_read e = true ->
  is_sleep e = false /\ is_warn e = false /\ is_trigger e = false /\
  is_slot_write e = false /\ is_bus e = true.
Proof. destruct e as [sreg v r|sreg r| |]; try discriminate. cbn. auto. Qed.

(** ** Properties of the operation sequencer *)

(** X1, success only after observed completion. The sequencer returns
    0 only when its last event is a poll read of the address register
    whose 16-bit status has both opcode bits clear; in particular it
    never reports success without having polled. *)
Theorem success_only_after_completion {B : Type} {bus : mii_bus B}
  (page reg op : Z) (d : b53_device B) :
  result (b53_mdio_op page reg op d) = 0 ->
  exists pre v,
    trace (b53_mdio_op page reg op d) = pre ++ [EvRead REG_MII_ADDR v] /\
    pending v = false.
Proof.
  exact (op_run_success_ends_clear _ _ _ _ _ (b53_mdio_op_run page reg op d)).
Qed.

Lemma success_only_after_completion_witness :
  exists pre v,
    trace (b53_mdio_op 1 2 REG_MII_ADDR_WRITE (b53_phy_probe [0; 0; 1; 0x200])) =
      pre ++ [EvRead REG_MII_ADDR v] /\
    pending v = false.
Proof.
  apply (success_only_after_completion 1 2 REG_MII_ADDR_WRITE
           (b53_phy_probe [0; 0; 1; 0x200])).
  vm_compute. reflexivity.
Defined.

(** X2, sleeps and the warning. The sequencer sleeps once after every
    poll read that found the operation pending, also after the fifth,
    and at no other time, so at most 5 times.  It raises its warning
    exactly when five poll reads found the operation pending; a call
    that warned returned [-EIO] and saw no bus write fail. *)
Theorem sleeps_and_warning {B : Type} {bus : mii_bus B}
  (page reg op : Z) (d : b53_device B) :
  count is_sleep (trace (b53_mdio_op page reg op d)) =
    count is_pending_read (trace (b53_mdio_op page reg op d)) /\
  (count is_pending_read (trace (b53_mdio_op page reg op d)) <= 5)%nat /\
  count is_warn (trace (b53_mdio_op page reg op d)) =
    (if (count is_pending_read (trace (b53_mdio_op page reg op d)) =? 5)%nat
     then 1%nat else 0%nat) /\
  (count is_warn (trace (b53_mdio_op page reg op d)) = 1%nat ->
   result (b53_mdio_op page reg op d) = - EIO /\
   count is_failed_write (trace (b53_mdio_op page reg op d)) = 0%nat).
Proof.
  exact (op_run_sleeps_warns _ _ _ _ _ (b53_mdio_op_run page reg op d)).
Qed.

Lemma sleeps_and_warning_witness :
  result (b53_mdio_op 1 2 REG_MII_ADDR_READ (b53_phy_probe (ConstBus 0 1))) = - EIO /\
  count is_failed_write
    (trace (b53_mdio_op 1 2 REG_MII_ADDR_READ (b53_phy_probe (ConstBus 0 1)))) = 0%nat.
Proof.
  apply (proj2 (proj2 (proj2
           (sleeps_and_warning 1 2 REG_MII_ADDR_READ (b53_phy_probe (ConstBus 0 1)))))).
  vm_compute. reflexivity.
Defined.

(** ** Properties of the ten accessors *)

(** X3, any failed bus write ends the access. In each of the ten
    accessors a bus write that returns an error, to whatever register
    (page, address or data slot), is the last event of the call, and its
    status is what the call returns. *)
Theorem failed_write_ends_access {B : Type} {bus : mii_bus B}
  (a : access) (page reg : Z) (d : b53_device B) (wreg v r : Z) :
  In (EvWrite wreg v r) (trace (b53_access a page reg d)) -> r <> 0 ->
  result (b53_access a page reg d) = r /\
  exists pre, trace (b53_access a page reg d) = pre ++ [EvWrite wreg v r].
Proof.
  intros Hin Hr.
  assert (Hf : is_failed_write (EvWrite wreg v r) = true).
  { cbn. apply Z.eqb_neq in Hr. now rewrite Hr. }
  assert (Hok : forall l, Forall (fun e => is_ok_slot_write e = true) l ->
            ~ In (EvWrite wreg v r) l).
  { intros l Hl Hi. rewrite Forall_forall in Hl. specialize (Hl _ Hi).
    cbn in Hl. apply andb_true_iff in Hl. destruct Hl as [_ Hl].
    apply Z.eqb_eq in Hl. contradiction. }
  destruct (b53_access_run a page reg d)
    as [pre sreg v' r' d1 Hpre Hs Hr' _|pre d1 y post d2 Hpre _ _ Hop Hpost Hfail _];
    cbn [result trace fst snd] in *.
  - apply in_app_or in Hin. destruct Hin as [Hin|[Heq|[]]].
    + now apply Hok in Hin.
    + injection Heq as -> -> ->. split; [reflexivity|]. now exists pre.
  - apply in_app_or in Hin. destruct Hin as [Hin|Hin]; [now apply Hok in Hin|].
    apply in_app_or in Hin. destruct Hin as [Hin|Hin].
    + destruct (op_run_failed_write _ _ _ _ _ Hop _ Hin Hf)
        as (pre' & wreg' & v'' & Heq & Ht).
      injection Heq as _ _ Hres. rewrite <- Hres in *.
      split; [reflexivity|]. rewrite (Hfail Hr), app_nil_r, Ht.
      exists (pre ++ pre'). now rewrite app_assoc.
    + exfalso. rewrite Forall_forall in Hpost. specialize (Hpost _ Hin). discriminate.
Qed.

Lemma failed_write_ends_access_witness :
  result (b53_access (Rd W16) 1 2 (b53_phy_probe [0; -19])) = -19 /\
  exists pre,
    trace (b53_access (Rd W16) 1 2 (b53_phy_probe [0; -19])) =
      pre ++ [EvWrite REG_MII_ADDR 0x202 (-19)].
Proof.
  apply (failed_write_ends_access (Rd W16) 1 2 (b53_phy_probe [0; -19])).
  - vm_compute. right. left. reflexivity.
  - discriminate.
Defined.

(** X5, words on the wire. In each of the ten accessors every write to
    the page register carries [(page << 8) | 1] and is issued only when
    the cached page differs, and every write to the address register
    carries [(reg << 8) | opcode] with the READ opcode for a read-N and
    the WRITE opcode for a write-N.  For [u8] page and register the
    fields decode back: the high byte is the page or register, the low
    bits the enable bit or the opcode. *)
Theorem words_on_the_wire {B : Type} {bus : mii_bus B}
  (a : access) (page reg : Z) (d : b53_device B) (wreg v r : Z) :
  In (EvWrite wreg v r) (trace (b53_access a page reg d)) ->
  (wreg = REG_MII_PAGE ->
   v = page_word page /\ current_page d <> page /\
   (0 <= page < 256 -> v = page * 256 + 1 /\ Z.shiftr v 8 = page)) /\
  (wreg = REG_MII_ADDR ->
   v = addr_word reg (opcode a) /\
   (0 <= reg < 256 ->
    v = reg * 256 + opcode a /\ Z.shiftr v 8 = reg /\ Z.land v 3 = opcode a)).
Proof.
  intros Hin.
  assert (Hop : 0 <= opcode a < 4)
    by (destruct a; cbn [opcode]; unfold REG_MII_ADDR_READ, REG_MII_ADDR_WRITE; lia).
  assert (Hcur : wreg = REG_MII_PAGE -> current_page d <> page).
  { intros -> Hc.
    destruct (access_run_page_selects _ _ _ _ _ (b53_access_run a page reg d))
      as (_ & Hz & _).
    pose proof (count_zero_In _ _ _ (Hz Hc) Hin) as Hn. discriminate Hn. }
  destruct (access_trace_split a page reg d)
    as (pre & mid & post & Ht & Hpre & Hpost & _ & Hmid & _).
  rewrite Ht in Hin.
  apply in_app_or in Hin. destruct Hin as [Hin|Hin].
  { rewrite Forall_forall in Hpre. specialize (Hpre _ Hin). cbn in Hpre.
    split; intros ->; discriminate Hpre. }
  apply in_app_or in Hin. destruct Hin as [Hin|Hin].
  2:{ rewrite Forall_forall in Hpost. specialize (Hpost _ Hin). discriminate. }
  destruct Hmid as [->|(d1 & ->)]; [destruct Hin|].
  destruct (op_run_words _ _ _ _ _ (b53_mdio_op_run _ _ _ d1) _ Hin) as [Hp Ha].
  split; intros ->.
  - destruct (Hp eq_refl) as [r' Heq]. injection Heq as -> _.
    split; [reflexivity|]. split; [auto|]. intros Hpage.
    exact (page_word_value page Hpage).
  - destruct (Ha eq_refl) as [r' Heq]. injection Heq as -> _.
    split; [reflexivity|]. intros Hreg.
    exact (addr_word_value reg (opcode a) Hreg Hop).
Qed.

Lemma words_on_the_wire_witness :
  (0x301 = page_word 3 /\ current_page (b53_phy_probe sim_init) <> 3 /\
   (0 <= 3 < 256 -> 0x301 = 3 * 256 + 1 /\ Z.shiftr 0x301 8 = 3)).
Proof.
  refine (proj1 (words_on_the_wire (Wr W16 5) 3 4 (b53_phy_probe sim_init)
                   REG_MII_PAGE 0x301 0 _) _).
  - vm_compute. right. left. reflexivity.
  - reflexivity.
Defined.

(** X7, bounds on one access. An access of width [w] issues at most
    [slots w + 7] bus transactions (the slots, one page-select write,
    one trigger and at most 5 poll reads), at most one write to the
    address register, and sleeps at most 5 times. *)
Theorem access_transaction_bound {B : Type} {bus : mii_bus B}
  (a : access) (page reg : Z) (d : b53_device B) :
  (count is_bus (trace (b53_access a page reg d)) <= slots (access_width a) + 7)%nat /\
  (count is_trigger (trace (b53_access a page reg d)) <= 1)%nat /\
  (count is_sleep (trace (b53_access a page reg d)) <= 5)%nat.
Proof.
  destruct (access_trace_split a page reg d)
    as (pre & mid & post & -> & Hpre & Hpost & Hlen & Hmid & _).
  counts.
  pose proof (count_le_length is_bus pre). pose proof (count_le_length is_bus post).
  rewrite (Forall_count0 _ _ _ Hpre (fun e H => proj1 (proj2 (proj2 (slot_write_not_x e H))))).
  rewrite (Forall_count0 _ _ _ Hpre (fun e H => proj1 (slot_write_not_x e H))).
  rewrite (Forall_count0 _ _ _ Hpost (fun e H => proj1 (proj2 (proj2 (slot_read_not_x e H))))).
  rewrite (Forall_count0 _ _ _ Hpost (fun e H => proj1 (slot_read_not_x e H))).
  destruct Hmid as [->|(d1 & ->)]; [counts; lia|].
  pose proof (b53_mdio_op_run page reg (opcode a) d1) as Hop.
  pose proof (op_run_bus_count _ _ _ _ _ Hop).
  pose proof (op_run_triggers _ _ _ _ _ Hop).
  destruct (op_run_sleeps_warns _ _ _ _ _ Hop) as (Hs & Hp & _).
  lia.
Qed.

(** X13, a timed-out access leaves the page selected. When an access
    ends in the sequencer's timeout (its warning is in the trace) it
    returns [-EIO], [current_page] is the requested page, and a retry of
    any access to that page issues no page-select write. *)
Theorem timeout_keeps_page_cached {B : Type} {bus : mii_bus B}
  (a : access) (page reg : Z) (d : b53_device B) :
  In EvWarn (trace (b53_access a page reg d)) ->
  result (b53_access a page reg d) = - EIO /\
  current_page (final (b53_access a page reg d)) = page /\
  forall a' reg',
    count is_page_select
      (trace (b53_access a' page reg' (final (b53_access a page reg d)))) = 0%nat.
Proof.
  intros Hin.
  assert (Hres : result (b53_access a page reg d) = - EIO /\
                 current_page (final (b53_access a page reg d)) = page).
  { destruct (b53_access_run a page reg d)
      as [pre sreg v r d1 Hpre Hs Hr _|pre d1 y post d2 Hpre _ _ Hop Hpost _ Hpg];
      cbn [result final trace fst snd] in *.
    - exfalso. apply in_app_or in Hin. destruct Hin as [Hin|[Heq|[]]]; [|discriminate].
      rewrite Forall_forall in Hpre. specialize (Hpre _ Hin). discriminate.
    - apply in_app_or in Hin. destruct Hin as [Hin|Hin].
      { rewrite Forall_forall in Hpre. specialize (Hpre _ Hin). discriminate. }
      apply in_app_or in Hin. destruct Hin as [Hin|Hin].
      2:{ rewrite Forall_forall in Hpost. specialize (Hpost _ Hin). discriminate. }
      destruct (op_run_sleeps_warns _ _ _ _ _ Hop) as (_ & _ & Hw & Hres).
      assert (Hw1 : count is_warn (trace y) = 1%nat).
      { pose proof (In_count_pos is_warn _ _ Hin eq_refl).
        destruct (count is_pending_read (trace y) =? 5)%nat; lia. }
      destruct (Hres Hw1) as [Hr Hf].
      split; [exact Hr|]. rewrite Hpg.
      exact (op_run_page_unless_failed _ _ _ _ _ Hop Hf). }
  destruct Hres as [Hr Hpg]. split; [exact Hr|]. split; [exact Hpg|].
  intros a' reg'.
  destruct (access_run_page_selects _ _ _ _ _
              (b53_access_run a' page reg' (final (b53_access a page reg d))))
    as (_ & Hz & _).
  exact (Hz Hpg).
Qed.

Lemma timeout_keeps_page_cached_witness :
  result (b53_access (Wr W8 1) 4 2 (b53_phy_probe (ConstBus 0 2))) = - EIO /\
  current_page (final (b53_access (Wr W8 1) 4 2 (b53_phy_probe (ConstBus 0 2)))) = 4 /\
  forall a' reg',
    count is_page_select
      (trace (b53_access a' 4 reg'
                (final (b53_access (Wr W8 1) 4 2 (b53_phy_probe (ConstBus 0 2)))))) = 0%nat.
Proof.
  apply (timeout_keeps_page_cached (Wr W8 1) 4 2 (b53_phy_probe (ConstBus 0 2))).
  vm_compute. do 13 right. left. reflexivity.
Defined.

(** X14, the page cache tracks the bus. Through any sequence of accesses
    to [u8] pages, over any transport and whatever fails on the way,
    [current_page] ends as the page of the last page-select write that
    returned 0, or as it started when no such write was issued. *)
Theorem page_cache_tracks_bus {B : Type} {bus : mii_bus B}
  (l : list (access * Z * Z)) (d : b53_device B) :
  Forall (fun q => 0 <= snd (fst q) < 256) l ->
  current_page (final (run_accesses l d)) =
    last_selected (trace (run_accesses l d)) (current_page d).
Proof.
  intros Hl. revert d. induction Hl as [|[[a page] reg] l Hp _ IH]; intros d;
    [reflexivity|].
  cbn [run_accesses]. unfold mbind, mret.
  assert (Hacc : current_page (final (b53_access a page reg d)) =
                 last_selected (trace (b53_access a page reg d)) (current_page d)).
  { cbn [fst snd] in Hp.
    destruct (b53_access_run a page reg d)
      as [pre sreg v r d1 Hpre Hs Hr Hd1|pre d1 y post d2 Hpre _ Hd1 Hop Hpost _ Hpg];
      cbn [result final trace fst snd].
    - rewrite Hd1. symmetry. apply last_selected_noop. counts.
      rewrite (Forall_count0 _ _ _ Hpre ok_slot_write_not_page_select).
      cbn [is_page_select]. now rewrite (slot_not_page _ Hs).
    - rewrite !last_selected_app.
      rewrite (last_selected_noop pre)
        by exact (Forall_count0 _ _ _ Hpre ok_slot_write_not_page_select).
      rewrite (last_selected_noop post)
        by exact (Forall_count0 _ _ _ Hpost slot_read_not_page_select).
      rewrite Hpg, <- Hd1. exact (op_run_tracks_bus _ _ _ _ _ Hop Hp). }
  specialize (IH (final (b53_access a page reg d))).
  destruct (b53_access a page reg d) as [[r d1] t1].
  cbn [final fst snd trace] in *.
  destruct (run_accesses l d1) as [[rs d2] t2].
  cbn [final fst snd trace] in *.
  rewrite app_nil_r, last_selected_app, <- Hacc. exact IH.
Qed.

Lemma page_cache_tracks_bus_witness :
  current_page
    (final (run_accesses [(Wr W16 7, 3, 1); (Rd W8, 3, 2); (Rd W32, 9, 0)]
              (b53_phy_probe [0; 0; 0; 0; 0; 0; 5; -5]))) =
  last_selected
    (trace (run_accesses [(Wr W16 7, 3, 1); (Rd W8, 3, 2); (Rd W32, 9, 0)]
              (b53_phy_probe [0; 0; 0; 0; 0; 0; 5; -5])))
    (current_page (b53_phy_probe [0; 0; 0; 0; 0; 0; 5; -5])).
Proof.
  apply (page_cache_tracks_bus [(Wr W16 7, 3, 1); (Rd W8, 3, 2); (Rd W32, 9, 0)]
           (b53_phy_probe [0; 0; 0; 0; 0; 0; 5; -5])).
  repeat constructor; cbn; lia.
Defined.

(** ** Registers touched by an access *)

Lemma count_zero_Forall (p : event -> bool) l :
  count (fun e => negb (p e)) l = 0%nat -> Forall (fun e => p e = true) l.
Proof.
  induction l as [|e l IH]; [constructor|].
  rewrite count_cons. intros H. destruct (p e) eqn:E; cbn [negb] in H; [|lia].
  constructor; [exact E|apply IH; lia].
Qed.

Lemma op_allowed {B : Type} {bus : mii_bus B} a page reg op (d : b53_device B) :
  Forall (fun e => allowed_event a e = true) (trace (b53_mdio_op page reg op d)).
Proof.
  apply count_zero_Forall.
  apply (op_run_count0 _ _ _ _ _ (b53_mdio_op_run page reg op d)); reflexivity.
Qed.

Lemma stage_allowed {B : Type} {bus : mii_bus B} w V n :
  forall i temp (d : b53_device B),
    0 <= i -> i + Z.of_nat n <= Z.of_nat (slots w) ->
    Forall (fun e => allowed_event (Wr w V) e = true) (trace (stage n i temp d)).
Proof.
  induction n as [|n IH]; intros i temp d Hi Hn; [constructor|].
  cbn [stage]. unfold mbind, bus_write, mret.
  destruct (mdiobus_write (priv d) _ _ _) as [r b].
  assert (Hok : allowed_event (Wr w V)
                  (EvWrite (REG_MII_DATA0 + i) (u16 (Z.land temp 65535)) r) = true).
  { cbn [allowed_event]. unfold slot_in_width.
    replace (REG_MII_DATA0 <=? REG_MII_DATA0 + i) with true
      by (symmetry; apply Z.leb_le; lia).
    replace (REG_MII_DATA0 + i <? REG_MII_DATA0 + Z.of_nat (slots w)) with true
      by (symmetry; apply Z.ltb_lt; lia).
    now rewrite orb_true_r. }
  destruct (negb (r =? 0)); [repeat constructor; exact Hok|].
  specialize (IH (i + 1) (Z.shiftr temp 16)
                {| priv := b; current_page := current_page d |} ltac:(lia) ltac:(lia)).
  destruct (stage n (i + 1) _ _) as [[r' d'] t']. cbn [trace snd app] in *.
  constructor; [exact Hok|exact IH].
Qed.

(** X6, an access touches only its own registers. Every bus
    transaction of an access goes to the page register (written only),
    the address register, or a data slot below the slot count of its
    width; data slots are written only by a write-N and read only by a
    read-N.  So a narrow access never touches the higher data slots, a
    read never stages and a write never drains. *)
Theorem access_touches_only_its_registers {B : Type} {bus : mii_bus B}
  (a : access) (page reg : Z) (d : b53_device B) :
  Forall (fun e => allowed_event a e = true) (trace (b53_access a page reg d)).
Proof.
  destruct a as [w|w V].
  - destruct (access_read_eq w page reg d) as [_ ->].
    destruct (io_read_shape w page reg d) as [Hfail Hok].
    destruct (Z.eq_dec (result (b53_mdio_op page reg REG_MII_ADDR_READ d)) 0) as [E|E].
    + destruct (Hok E) as (rs & Hl & -> & _).
      apply Forall_app. split; [apply op_allowed|].
      destruct w; cbn [read_regs length] in Hl;
        repeat (destruct rs as [|? rs]; try discriminate);
        repeat constructor.
    + destruct (Hfail E) as [_ ->]. apply op_allowed.
  - cbn [b53_access].
    assert (Hst : forall (st : M B Z),
              Forall (fun e => allowed_event (Wr w V) e = true) (trace (st d)) ->
              Forall (fun e => allowed_event (Wr w V) e = true)
                (trace (mbind st (fun ret => if negb (ret =? 0) then mret ret
                                   else b53_mdio_op page reg REG_MII_ADDR_WRITE) d))).
    { intros st Hall. unfold mbind. destruct (st d) as [[r d1] pre].
      cbn [trace snd] in Hall.
      destruct (negb (r =? 0)).
      - unfold mret. cbn [trace snd]. now rewrite app_nil_r.
      - pose proof (op_allowed (Wr w V) page reg REG_MII_ADDR_WRITE d1) as Hop.
        destruct (b53_mdio_op page reg REG_MII_ADDR_WRITE d1) as [[r2 d2] t2].
        cbn [trace snd] in *. apply Forall_app. now split. }
    assert (Hbw : slots w = 1%nat ->
              Forall (fun e => allowed_event (Wr w V) e = true)
                (trace (bus_write REG_MII_DATA0 V d))).
    { intros Hw. unfold bus_write. destruct (mdiobus_write _ _ _ _) as [r b].
      cbn [trace snd]. repeat constructor. cbn [allowed_event]. unfold slot_in_width.
      rewrite Hw. reflexivity. }
    destruct w.
    + apply (Hst (bus_write REG_MII_DATA0 V)). now apply Hbw.
    + apply (Hst (bus_write REG_MII_DATA0 V)). now apply Hbw.
    + apply (Hst (stage 2 0 V)). apply stage_allowed; cbn; lia.
    + apply (Hst (stage 3 0 V)). apply stage_allowed; cbn; lia.
    + apply (Hst (stage 4 0 V)). apply stage_allowed; cbn; lia.
Qed.

(** ** What an access reports *)

Lemma op_run_success_iff {B : Type} {bus : mii_bus B}
  page reg op (d : b53_device B) x :
  op_run page reg op d x ->
  (result x = 0 <->
   count is_failed_write (trace x) = 0%nat /\ count is_warn (trace x) = 0%nat).
Proof.
  intros Hrun.
  assert (Hsel : forall r d1 sel, page_select page d r d1 sel ->
            count is_warn sel = 0%nat /\
            (r = 0 -> count is_failed_write sel = 0%nat) /\
            (r <> 0 -> count is_failed_write sel = 1%nat)).
  { intros r d1 sel H. destruct H as [Hc|r b Hne Hw Hr|b Hne Hw]; counts;
      cbn [is_warn is_failed_write Z.eqb negb Nat.add].
    - repeat split; intros; congruence.
    - pose proof Hr as Hr'. apply Z.eqb_neq in Hr'. rewrite Hr'. cbn [negb].
      repeat split; intros; congruence.
    - repeat split; intros; congruence. }
  destruct Hrun as [r d1 sel Hs Hr|d1 sel r b Hs _ Hr|d1 sel b y Hs _ Hp];
    cbn [result trace fst snd]; counts;
    destruct (Hsel _ _ _ Hs) as (Hw & Hf0 & Hf1); rewrite Hw.
  - rewrite (Hf1 Hr). split; [congruence|lia].
  - rewrite (Hf0 eq_refl). cbn [is_failed_write is_warn].
    pose proof Hr as Hr'. apply Z.eqb_neq in Hr'. rewrite Hr'. cbn [negb].
    split; [congruence|lia].
  - rewrite (Hf0 eq_refl). cbn [is_failed_write is_warn Z.eqb negb].
    destruct (poll_run_pending _ _ _ _ Hp) as (_ & _ & -> & ->).
    destruct (result y =? 5); counts; cbn [is_failed_write is_warn];
      split; try discriminate; try lia; auto.
Qed.

(** X4, what an access reports.  Each of the ten accessors returns
    success exactly when none of its bus writes returned an error and
    its sequencer did not time out (no warning was raised). *)
Theorem success_iff_writes_ok_and_completed {B : Type} {bus : mii_bus B}
  (a : access) (page reg : Z) (d : b53_device B) :
  result (b53_access a page reg d) = 0 <->
  count is_failed_write (trace (b53_access a page reg d)) = 0%nat /\
  count is_warn (trace (b53_access a page reg d)) = 0%nat.
Proof.
  assert (Hok : forall l, Forall (fun e => is_ok_slot_write e = true) l ->
            count is_failed_write l = 0%nat /\ count is_warn l = 0%nat).
  { intros l Hl. split; apply (Forall_count0 _ _ _ Hl);
      intros [sreg v r| | |]; try discriminate; cbn; intros H; [|reflexivity].
    apply andb_true_iff in H. destruct H as [_ ->]. reflexivity. }
  assert (Hrd : forall l, Forall (fun e => is_slot_read e = true) l ->
            count is_failed_write l = 0%nat /\ count is_warn l = 0%nat).
  { intros l Hl. split; apply (Forall_count0 _ _ _ Hl);
      intros [sreg v r|sreg r| |]; try discriminate; reflexivity. }
  destruct (b53_access_run a page reg d)
    as [pre sreg v r d1 Hpre Hs Hr _|pre d1 y post d2 Hpre _ _ Hop Hpost _ _];
    cbn [result trace fst snd]; counts;
    destruct (Hok _ Hpre) as [-> ->].
  - cbn [is_failed_write is_warn]. apply Z.eqb_neq in Hr. rewrite Hr. cbn [negb].
    apply Z.eqb_neq in Hr. split; [congruence|lia].
  - destruct (Hrd _ Hpost) as [-> ->]. rewrite !Nat.add_0_r. cbn [Nat.add].
    exact (op_run_success_iff _ _ _ _ _ Hop).
Qed.

Lemma success_iff_writes_ok_and_completed_witness :
  result (b53_access (Rd W32) 1 2 (b53_phy_probe [0; 0; 0; -5; -19])) = 0 /\
  (count is_failed_write
     (trace (b53_access (Wr W32 9) 1 2 (b53_phy_probe sim_init))) = 0%nat /\
   count is_warn
     (trace (b53_access (Wr W32 9) 1 2 (b53_phy_probe sim_init))) = 0%nat).
Proof.
  split.
  - apply (proj2 (success_iff_writes_ok_and_completed (Rd W32) 1 2
                    (b53_phy_probe [0; 0; 0; -5; -19]))).
    vm_compute. split; reflexivity.
  - apply (proj1 (success_iff_writes_ok_and_completed (Wr W32 9) 1 2
                    (b53_phy_probe sim_init))).
    vm_compute. reflexivity.
Defined.
